(** * crypto-bot: the Flask handlers of [backend/index.py]

    A shallow embedding of the request handlers of [src/backend/index.py]
    and of the Python built-ins they use, followed by the properties of the
    handlers that the specification states.

    The model. A [str] is ASCII text. A [float] is an IEEE binary64
    number. What is outside the process (the chain client, the ABI files,
    the clock) answers each call with a value or an exception that may
    depend on the calls made before; every such exception derives from
    [Exception]. A handler is the Python function of the source, given
    the value of [request.get_json()].

    Layout:
    - [Py]: the Python values and built-in operations the handlers use
      (text, [int()], [float()], [str()], arithmetic, truthiness);
    - the effect monad: the log file, the trace of calls that leave the
      process, exceptions;
    - the handlers, one definition per [def] of the source;
    - the properties. *)

From Stdlib Require Import ZArith List String Ascii Bool Lia.
From Stdlib Require Import Floats DecimalString.
Import ListNotations.

Local Open Scope string_scope.
Local Open Scope Z_scope.

(* ================================================================== *)
(** * Python built-ins *)
(* ================================================================== *)

Module Py.

(** ** Text

    A [str] is modelled as a [string] of ASCII characters. *)

Definition chars (s : string) : list ascii := list_ascii_of_string s.
Definition text (l : list ascii) : string := string_of_list_ascii l.

(** [str.isspace] on ASCII: tab, LF, VT, FF, CR, FS, GS, RS, US, space. *)
Definition is_space (c : ascii) : bool :=
  let n := Z.of_nat (nat_of_ascii c) in
  (n =? 32) || ((9 <=? n) && (n <=? 13)) || ((28 <=? n) && (n <=? 31)).

Fixpoint lstrip (l : list ascii) : list ascii :=
  match l with
  | c :: r => if is_space c then lstrip r else l
  | [] => []
  end.

Definition rstrip (l : list ascii) : list ascii := rev (lstrip (rev l)).

(** [s.strip()] *)
Definition strip (l : list ascii) : list ascii := rstrip (lstrip l).

(** [s.split(sep)] for a one-character separator: never empty, [''] for
    the empty string. *)
Fixpoint split (sep : ascii) (l : list ascii) : list (list ascii) :=
  match l with
  | [] => [[]]
  | c :: r =>
      if Ascii.eqb c sep then [] :: split sep r
      else match split sep r with
           | f :: fs => (c :: f) :: fs
           | [] => [[c]]
           end
  end.

(** Reading a text file translates CR LF and a lone CR to LF (universal
    newlines, the default of [open]). *)
Fixpoint universal_newlines (l : list ascii) : list ascii :=
  match l with
  | [] => []
  | c :: r =>
      if Ascii.eqb c "013" then
        match r with
        | c2 :: r2 =>
            if Ascii.eqb c2 "010" then "010"%char :: universal_newlines r2
            else "010"%char :: universal_newlines r
        | [] => ["010"%char]
        end
      else c :: universal_newlines r
  end.

(** The lines [for line in f] yields: each keeps its LF; a last line with
    no LF is yielded when it is not empty. *)
Fixpoint lines_from (cur : list ascii) (l : list ascii) : list (list ascii) :=
  match l with
  | [] => match cur with [] => [] | _ => [rev cur] end
  | c :: r =>
      if Ascii.eqb c "010" then rev (c :: cur) :: lines_from [] r
      else lines_from (c :: cur) r
  end.

Definition file_lines (content : string) : list (list ascii) :=
  lines_from [] (universal_newlines (chars content)).

(** ** Decimal digits *)

Definition digit_of (c : ascii) : option Z :=
  let n := Z.of_nat (nat_of_ascii c) in
  if (48 <=? n) && (n <=? 57) then Some (n - 48) else None.

(** The rest of a [digitpart] after its first digit: digits, each
    optionally preceded by one underscore. *)
Fixpoint digit_tail (l : list ascii) : list Z * list ascii :=
  match l with
  | [] => ([], [])
  | c :: r =>
      match digit_of c with
      | Some d => let (ds, rest) := digit_tail r in (d :: ds, rest)
      | None =>
          if Ascii.eqb c "_" then
            match r with
            | c2 :: r2 =>
                match digit_of c2 with
                | Some d2 => let (ds, rest) := digit_tail r2 in (d2 :: ds, rest)
                | None => ([], l)
                end
            | [] => ([], l)
            end
          else ([], l)
      end
  end.

(** [digitpart ::= digit (["_"] digit)*]: the digits read and what follows. *)
Definition digitpart (l : list ascii) : option (list Z * list ascii) :=
  match l with
  | c :: r =>
      match digit_of c with
      | Some d => let (ds, rest) := digit_tail r in Some (d :: ds, rest)
      | None => None
      end
  | [] => None
  end.

Definition digits_value (ds : list Z) : Z :=
  fold_left (fun acc d => 10 * acc + d) ds 0.

(** An optional sign: [true] for a minus. *)
Definition read_sign (l : list ascii) : bool * list ascii :=
  match l with
  | c :: r =>
      if Ascii.eqb c "-" then (true, r)
      else if Ascii.eqb c "+" then (false, r)
      else (false, l)
  | [] => (false, [])
  end.

(** ** [int(s)] for a [str] in base 10: [None] is [ValueError]. *)
Definition int_of_str (l : list ascii) : option Z :=
  let (neg, body) := read_sign (strip l) in
  match digitpart body with
  | Some (ds, []) => Some (if neg then - digits_value ds else digits_value ds)
  | _ => None
  end.

(** ** Floats

    A Python [float] is an IEEE binary64 number: Rocq's primitive [float].
    Conversions from exact decimal or integer values round to nearest,
    ties to even, through [SpecFloat]. *)

Definition sf_of_Z (z : Z) : spec_float :=
  match z with
  | Z0 => S754_zero false
  | Zpos p => S754_finite false p 0
  | Zneg p => S754_finite true p 0
  end.

(** The float nearest to [(-1)^neg * m * 10^e], for [0 <= m]. *)
Definition float_of_decimal (neg : bool) (m e : Z) : float :=
  if m =? 0 then (if neg then neg_zero else zero)
  else if 0 <=? e then
    SF2Prim (binary_normalize prec emax ((if neg then - m else m) * 10 ^ e) 0 false)
  else
    SF2Prim (SFdiv prec emax (S754_finite neg (Z.to_pos m) 0)
                             (S754_finite false (Z.to_pos (10 ^ (- e))) 0)).

Definition lower (c : ascii) : ascii :=
  let n := Z.of_nat (nat_of_ascii c) in
  if (65 <=? n) && (n <=? 90) then ascii_of_nat (Z.to_nat (n + 32)) else c.

(** [number ::= [digitpart] "." digitpart | digitpart ["."]]: the integer
    digits, the fraction digits and what follows. *)
Definition read_number (l : list ascii) : option (list Z * list Z * list ascii) :=
  match digitpart l with
  | Some (ds, rest) =>
      match rest with
      | c :: r =>
          if Ascii.eqb c "." then
            match digitpart r with
            | Some (fs, rest') => Some (ds, fs, rest')
            | None => Some (ds, [], r)
            end
          else Some (ds, [], rest)
      | [] => Some (ds, [], [])
      end
  | None =>
      match l with
      | c :: r =>
          if Ascii.eqb c "." then
            match digitpart r with
            | Some (fs, rest') => Some ([], fs, rest')
            | None => None
            end
          else None
      | [] => None
      end
  end.

(** [exponent ::= ("e" | "E") [sign] digitpart], optional, then the end. *)
Definition read_exponent (l : list ascii) : option Z :=
  match l with
  | [] => Some 0
  | c :: r =>
      if Ascii.eqb (lower c) "e" then
        let (neg, body) := read_sign r in
        match digitpart body with
        | Some (ds, []) => Some (if neg then - digits_value ds else digits_value ds)
        | _ => None
        end
      else None
  end.

(** ** [float(s)] for a [str]: [None] is [ValueError]. *)
Definition float_of_str (l : list ascii) : option float :=
  let (neg, body) := read_sign (strip l) in
  let low := text (map lower body) in
  if String.eqb low "inf" || String.eqb low "infinity" then
    Some (if neg then neg_infinity else infinity)
  else if String.eqb low "nan" then Some nan
  else
    match read_number body with
    | Some (ds, fs, rest) =>
        match read_exponent rest with
        | Some ex =>
            Some (float_of_decimal neg (digits_value (ds ++ fs)%list)
                                   (ex - Z.of_nat (List.length fs)))
        | None => None
        end
    | None => None
    end.

(** [int(x)] for a float: truncation toward zero; [None] for an infinity
    or a NaN. *)
Definition int_of_float (x : float) : option Z :=
  match Prim2SF x with
  | S754_zero _ => Some 0
  | S754_finite s m e =>
      let v := if 0 <=? e then Zpos m * 2 ^ e else Zpos m / 2 ^ (- e) in
      Some (if s then - v else v)
  | S754_infinity _ | S754_nan => None
  end.

(** [float(n)] for an int: [None] is [OverflowError]. *)
Definition float_of_int (z : Z) : option float :=
  match binary_normalize prec emax z 0 false with
  | S754_infinity _ => None
  | f => Some (SF2Prim f)
  end.

(** [a / b] for ints, [b] not zero: the correctly rounded quotient; [None]
    is [OverflowError]. *)
Definition int_truediv (a b : Z) : option float :=
  match SFdiv prec emax (sf_of_Z a) (sf_of_Z b) with
  | S754_infinity _ => None
  | f => Some (SF2Prim f)
  end.

(** ** [repr(x)] for a float: the shortest decimal that reads back as [x] *)

Definition dec (z : Z) : string := NilZero.string_of_int (Z.to_int z).

Fixpoint count_digits (fuel : nat) (q : Z) : Z :=
  match fuel with
  | O => 0
  | S f => if q <? 10 then 1 else 1 + count_digits f (q / 10)
  end.

Fixpoint first_scale (fuel : nat) (n d j : Z) : Z :=
  match fuel with
  | O => j
  | S f => if d <=? n then j else first_scale f (10 * n) d (j + 1)
  end.

(** The largest [e] with [10^e <= n/d], for positive [n] and [d]. *)
Definition floor_log10 (n d : Z) : Z :=
  if d <=? n then count_digits (S (Z.to_nat (Z.log2 (n / d)))) (n / d) - 1
  else - first_scale (S (Z.to_nat (Z.log2 d))) n d 0.

(** The decimal [c * 10^k] with [p] significant digits next to [n/d]
    that reads back as [x], if there is one: the nearer of the two
    neighbours when both do. *)
Definition candidate (x : float) (n d e10 p : Z) : option (Z * Z) :=
  let k := e10 - (p - 1) in
  let num := if 0 <=? k then n else n * 10 ^ (- k) in
  let den := if 0 <=? k then d * 10 ^ k else d in
  let lo := num / den in
  let r := num mod den in
  let hi := lo + 1 in
  let ok c := PrimFloat.eqb (float_of_decimal false c k) x in
  if r =? 0 then Some (lo, k)
  else
    match ok lo, ok hi with
    | true, true =>
        if 2 * r <? den then Some (lo, k)
        else if den <? 2 * r then Some (hi, k)
        else Some (if Z.even lo then lo else hi, k)
    | true, false => Some (lo, k)
    | false, true => Some (hi, k)
    | false, false => None
    end.

Fixpoint shortest_from (fuel : nat) (x : float) (n d e10 p : Z) : Z * Z :=
  match fuel with
  | O => (n / d, 0)
  | S f =>
      match candidate x n d e10 p with
      | Some ck => ck
      | None => shortest_from f x n d e10 (p + 1)
      end
  end.

Fixpoint drop_zeros (fuel : nat) (c k : Z) : Z * Z :=
  match fuel with
  | O => (c, k)
  | S f => if (0 <? c) && (c mod 10 =? 0) then drop_zeros f (c / 10) (k + 1) else (c, k)
  end.

(** The digits [c] and the exponent [k] of the shortest decimal
    [c * 10^k] that reads back as the positive float of value [n/d]. *)
Definition shortest (x : float) (n d : Z) : Z * Z :=
  let (c, k) := shortest_from 17 x n d (floor_log10 n d) 1 in
  drop_zeros 17 c k.

Definition zeros (n : Z) : string := text (repeat "0"%char (Z.to_nat n)).

(** The layout of [repr]: exponent form when the decimal point falls
    before the fourth leading zero or after sixteen digits. *)
Definition float_layout (ds : list ascii) (decpt : Z) : string :=
  let nd := Z.of_nat (List.length ds) in
  if (decpt <=? -4) || (16 <? decpt) then
    let ex := decpt - 1 in
    let mant := match ds with
                | c :: [] => text [c]
                | c :: r => text (c :: "."%char :: r)
                | [] => ""
                end in
    let esign := if ex <? 0 then "-" else "+" in
    let pad := if Z.abs ex <? 10 then "0" else "" in
    (mant ++ "e" ++ esign ++ pad ++ dec (Z.abs ex))%string
  else if decpt <=? 0 then
    let lead := zeros (- decpt) in ("0." ++ lead ++ text ds)%string
  else if nd <=? decpt then
    let trail := zeros (decpt - nd) in (text ds ++ trail ++ ".0")%string
  else
    let n := Z.to_nat decpt in
    (text (firstn n ds) ++ "." ++ text (skipn n ds))%string.

Definition float_repr (x : float) : string :=
  match Prim2SF x with
  | S754_nan => "nan"
  | S754_infinity s => if s then "-inf" else "inf"
  | S754_zero s => if s then "-0.0" else "0.0"
  | S754_finite s m e =>
      let n := if 0 <=? e then Zpos m * 2 ^ e else Zpos m in
      let d := if 0 <=? e then 1 else 2 ^ (- e) in
      let (c, k) := shortest (abs x) n d in
      let ds := chars (dec c) in
      let body := float_layout ds (Z.of_nat (List.length ds) + k) in
      if s then ("-" ++ body)%string else body
  end.

(** ** Values

    The values the handlers handle: what [request.get_json()] can return,
    tuples, and the [Response] that [jsonify] builds. *)

#[warnings="-register-all"]
Inductive value : Type :=
| VNone
| VBool (b : bool)
| VInt (z : Z)
| VFloat (x : float)
| VStr (s : string)
| VList (l : list value)
| VTuple (l : list value)
| VDict (kvs : list (string * value))
| VResponse (body : value).

Definition type_name (v : value) : string :=
  match v with
  | VNone => "NoneType"
  | VBool _ => "bool"
  | VInt _ => "int"
  | VFloat _ => "float"
  | VStr _ => "str"
  | VList _ => "list"
  | VTuple _ => "tuple"
  | VDict _ => "dict"
  | VResponse _ => "Response"
  end.

(** [x is None] *)
Definition is_none (v : value) : bool :=
  match v with VNone => true | _ => false end.

(** [bool(x)]: the truth value [if], [not] and [all] test. *)
Definition truthy (v : value) : bool :=
  match v with
  | VNone => false
  | VBool b => b
  | VInt z => negb (z =? 0)
  | VFloat x => negb (PrimFloat.eqb x zero)
  | VStr s => negb (String.eqb s "")
  | VList l | VTuple l => match l with [] => false | _ => true end
  | VDict kvs => match kvs with [] => false | _ => true end
  | VResponse _ => true
  end.

(** [all(xs)] *)
Definition all (xs : list value) : bool := forallb truthy xs.

(** ** Exceptions *)

Inductive exn_class : Type :=
| ValueError
| TypeError
| AttributeError
| KeyError
| IndexError
| ZeroDivisionError
| OverflowError
| OtherError (name : string).

(** An exception: its class and [str(e)]. Every class here derives from
    [Exception]. *)
Record exn : Type := Exn { exn_cls : exn_class; exn_msg : string }.

Inductive outcome (A : Type) : Type :=
| Ok (a : A)
| Raise (e : exn).

Arguments Ok {A} a.
Arguments Raise {A} e.

Definition of_option {A : Type} (o : option A) (e : exn) : outcome A :=
  match o with Some a => Ok a | None => Raise e end.

(** ** [repr] and [str] *)

Definition quote1 : ascii := "039".
Definition quote2 : ascii := "034".
Definition nl : string := String "010" "".

Definition hex_digit (n : Z) : ascii :=
  if n <? 10 then ascii_of_nat (Z.to_nat (48 + n))
  else ascii_of_nat (Z.to_nat (87 + n)).

Definition escape_char (q : ascii) (c : ascii) : list ascii :=
  let n := Z.of_nat (nat_of_ascii c) in
  if Ascii.eqb c "\" then ["\"; "\"]%char
  else if Ascii.eqb c q then ["\"%char; c]
  else if n =? 9 then ["\"; "t"]%char
  else if n =? 10 then ["\"; "n"]%char
  else if n =? 13 then ["\"; "r"]%char
  else if (n <? 32) || (n =? 127) then
    ["\"%char; "x"%char; hex_digit (n / 16); hex_digit (n mod 16)]
  else [c].

(** [repr(s)] for a [str]: single quotes, unless the text has a single
    quote and no double quote. *)
Definition repr_str (s : string) : string :=
  let l := chars s in
  let q := if existsb (Ascii.eqb quote1) l && negb (existsb (Ascii.eqb quote2) l)
           then quote2 else quote1 in
  text (q :: flat_map (escape_char q) l ++ [q])%list.

Fixpoint join (sep : string) (l : list string) : string :=
  match l with
  | [] => ""
  | [x] => x
  | x :: r => (x ++ sep ++ join sep r)%string
  end.

(** [repr(x)]. A [Response] is never rendered by a handler; its text
    here stands for Flask's. *)
Fixpoint repr (v : value) : string :=
  match v with
  | VNone => "None"
  | VBool b => if b then "True" else "False"
  | VInt z => dec z
  | VFloat x => float_repr x
  | VStr s => repr_str s
  | VList l => ("[" ++ join ", " (map repr l) ++ "]")%string
  | VTuple l =>
      match l with
      | [x] => ("(" ++ repr x ++ ",)")%string
      | _ => ("(" ++ join ", " (map repr l) ++ ")")%string
      end
  | VDict kvs =>
      ("{" ++ join ", " (map (fun '(k, x) => (repr_str k ++ ": " ++ repr x)%string) kvs)
           ++ "}")%string
  | VResponse _ => "<Response>"
  end.

(** [str(x)], which is also what an f-string field prints. *)
Definition str (v : value) : string :=
  match v with
  | VStr s => s
  | _ => repr v
  end.

(** ** Arithmetic *)

Definition as_int (v : value) : option Z :=
  match v with
  | VBool b => Some (if b then 1 else 0)
  | VInt z => Some z
  | _ => None
  end.

(** A number as a float, as mixed arithmetic converts it. *)
Definition as_float (v : value) : option (outcome float) :=
  match v with
  | VFloat x => Some (Ok x)
  | _ =>
      match as_int v with
      | Some z => Some (of_option (float_of_int z)
                          (Exn OverflowError "int too large to convert to float"))
      | None => None
      end
  end.

Definition is_sequence (v : value) : bool :=
  match v with VStr _ | VList _ | VTuple _ => true | _ => false end.

Fixpoint repeat_list {A : Type} (l : list A) (n : nat) : list A :=
  match n with O => [] | S k => (l ++ repeat_list l k)%list end.

(** [seq * n]: the sequence repeated, empty for [n <= 0]. *)
Definition seq_repeat (v : value) (n : Z) : value :=
  match v with
  | VStr s => VStr (text (repeat_list (chars s) (Z.to_nat n)))
  | VList l => VList (repeat_list l (Z.to_nat n))
  | VTuple l => VTuple (repeat_list l (Z.to_nat n))
  | _ => v
  end.

Definition unsupported (op : string) (a b : value) : exn :=
  Exn TypeError ("unsupported operand type(s) for " ++ op ++ ": '" ++ type_name a
                   ++ "' and '" ++ type_name b ++ "'").

(** [a * b] *)
Definition mul (a b : value) : outcome value :=
  match as_int a, as_int b with
  | Some x, Some y => Ok (VInt (x * y))
  | _, _ =>
      match as_float a, as_float b with
      | Some fa, Some fb =>
          match fa, fb with
          | Ok x, Ok y => Ok (VFloat (x * y)%float)
          | Raise e, _ => Raise e
          | _, Raise e => Raise e
          end
      | _, _ =>
          if is_sequence a then
            match as_int b with
            | Some n => Ok (seq_repeat a n)
            | None => Raise (Exn TypeError
                ("can't multiply sequence by non-int of type '" ++ type_name b ++ "'"))
            end
          else if is_sequence b then
            match as_int a with
            | Some n => Ok (seq_repeat b n)
            | None => Raise (Exn TypeError
                ("can't multiply sequence by non-int of type '" ++ type_name a ++ "'"))
            end
          else Raise (unsupported "*" a b)
      end
  end.

(** [a / b] *)
Definition truediv (a b : value) : outcome value :=
  match as_int a, as_int b with
  | Some x, Some y =>
      if y =? 0 then Raise (Exn ZeroDivisionError "division by zero")
      else match int_truediv x y with
           | Some q => Ok (VFloat q)
           | None => Raise (Exn OverflowError
                              "integer division result too large for a float")
           end
  | _, _ =>
      match as_float a, as_float b with
      | Some fa, Some fb =>
          match fa, fb with
          | Ok x, Ok y =>
              if PrimFloat.eqb y zero
              then Raise (Exn ZeroDivisionError "float division by zero")
              else Ok (VFloat (x / y)%float)
          | Raise e, _ => Raise e
          | _, Raise e => Raise e
          end
      | _, _ => Raise (unsupported "/" a b)
      end
  end.

(** [int(x)] *)
Definition int (v : value) : outcome Z :=
  match v with
  | VInt z => Ok z
  | VBool b => Ok (if b then 1 else 0)
  | VFloat x =>
      match int_of_float x with
      | Some z => Ok z
      | None =>
          if PrimFloat.eqb x x
          then Raise (Exn OverflowError "cannot convert float infinity to integer")
          else Raise (Exn ValueError "cannot convert float NaN to integer")
      end
  | VStr s =>
      of_option (int_of_str (chars s))
        (Exn ValueError ("invalid literal for int() with base 10: " ++ repr_str s))
  | _ => Raise (Exn TypeError
           ("int() argument must be a string, a bytes-like object or a real number, not '"
              ++ type_name v ++ "'"))
  end.

(** ** Containers *)

Fixpoint assoc (k : string) (kvs : list (string * value)) : option value :=
  match kvs with
  | [] => None
  | (k', x) :: r => if String.eqb k k' then Some x else assoc k r
  end.

Definition no_attribute (v : value) (name : string) : exn :=
  Exn AttributeError ("'" ++ type_name v ++ "' object has no attribute '" ++ name ++ "'").

(** [d.get(k)]: [None] for a missing key. Only a dict has [get]. *)
Definition get (d : value) (k : string) : outcome value :=
  match d with
  | VDict kvs => Ok (match assoc k kvs with Some x => x | None => VNone end)
  | _ => Raise (no_attribute d "get")
  end.

(** [d[k]] for a [str] key. *)
Definition getitem (d : value) (k : string) : outcome value :=
  match d with
  | VDict kvs => of_option (assoc k kvs) (Exn KeyError (repr_str k))
  | VList _ => Raise (Exn TypeError "list indices must be integers or slices, not str")
  | VTuple _ => Raise (Exn TypeError "tuple indices must be integers or slices, not str")
  | VStr _ => Raise (Exn TypeError "string indices must be integers, not 'str'")
  | _ => Raise (Exn TypeError ("'" ++ type_name d ++ "' object is not subscriptable"))
  end.

(** [x[-1]] *)
Definition last_item (v : value) : outcome value :=
  match v with
  | VList l =>
      match rev l with
      | x :: _ => Ok x
      | [] => Raise (Exn IndexError "list index out of range")
      end
  | VTuple l =>
      match rev l with
      | x :: _ => Ok x
      | [] => Raise (Exn IndexError "tuple index out of range")
      end
  | VStr s =>
      match rev (chars s) with
      | c :: _ => Ok (VStr (text [c]))
      | [] => Raise (Exn IndexError "string index out of range")
      end
  | VDict _ => Raise (Exn KeyError "-1")
  | _ => Raise (Exn TypeError ("'" ++ type_name v ++ "' object is not subscriptable"))
  end.

(** [x.json()]: a tuple, like every value but a [Response], has no
    attribute [json]; on a [Response] [json] is a property holding the
    parsed body, which is not callable. *)
Definition call_json (v : value) : outcome value :=
  match v with
  | VResponse body =>
      Raise (Exn TypeError ("'" ++ type_name body ++ "' object is not callable"))
  | _ => Raise (no_attribute v "json")
  end.

(** [jsonify(d)] for a dict display. *)
Definition jsonify (kvs : list (string * value)) : value := VResponse (VDict kvs).

End Py.

Import Py.

(* ================================================================== *)
(** * Effects *)
(* ================================================================== *)

(** A call that leaves the process: a method of the web3 client or of an
    object it returned, the reading of an ABI file, the clock. *)
Record call : Type := Call { call_name : string; call_args : list value }.

(** What a handler can change: the text of the log file
    ([config['logging']['file']]) and the calls made so far. The file
    exists (the logger's [FileHandler] opens it when the module loads,
    line 50), and reading it or appending to it does not fail. *)
Record world : Type := World { log_file : string; trace : list call }.

(** A computation: its result or the exception it raises, and the world
    it leaves. Effects made before an exception stay. *)
Definition M (A : Type) : Type := world -> outcome A * world.

Definition ret {A : Type} (a : A) : M A := fun w => (Ok a, w).

Definition bind {A B : Type} (m : M A) (k : A -> M B) : M B :=
  fun w =>
    match m w with
    | (Ok a, w') => k a w'
    | (Raise e, w') => (Raise e, w')
    end.

Definition lift {A : Type} (r : outcome A) : M A := fun w => (r, w).

(** [try: body except Exception as e: handler e] *)
Definition try_except {A : Type} (body : M A) (handler : exn -> M A) : M A :=
  fun w =>
    match body w with
    | (Ok a, w') => (Ok a, w')
    | (Raise e, w') => handler e w'
    end.

Declare Scope py_scope.
Delimit Scope py_scope with py.
Notation "x <- m ;; k" := (bind m (fun x => k))
  (at level 100, m at next level, right associativity) : py_scope.
Notation "m ;; k" := (bind m (fun _ => k))
  (at level 100, right associativity) : py_scope.
Local Open Scope py_scope.

(** [with open(log_file, 'a') as f: f.write(s)] *)
Definition append_log (s : string) : M unit :=
  fun w => (Ok tt, {| log_file := (log_file w ++ s)%string; trace := trace w |}).

(** [logger.info(msg)] and [logger.error(msg)]: the module's logger has
    level INFO and one handler, [logging.FileHandler(log_file)], on the
    same file (lines 49-50); it writes the message and a newline. *)
Definition logger_info (msg : string) : M unit := append_log (msg ++ nl)%string.
Definition logger_error (msg : string) : M unit := append_log (msg ++ nl)%string.

(** [open(log_file, 'r')] read whole, newlines translated. *)
Definition read_log : M string :=
  fun w => (Ok (text (universal_newlines (chars (log_file w)))), w).

(** ** The log as data (lines 311-316) *)

(** One parsed line: [(int(timestamp), float(amount_a), float(amount_b))]. *)
Definition entry : Type := Z * float * float.

(** [timestamp, amount_a, amount_b = line.strip().split(',')] and the
    three conversions. *)
Definition parse_line (line : list ascii) : outcome entry :=
  match split "," (strip line) with
  | [timestamp; amount_a; amount_b] =>
      match int_of_str timestamp with
      | None => Raise (Exn ValueError
          ("invalid literal for int() with base 10: " ++ repr_str (text timestamp)))
      | Some t =>
          match float_of_str amount_a with
          | None => Raise (Exn ValueError
              ("could not convert string to float: " ++ repr_str (text amount_a)))
          | Some a =>
              match float_of_str amount_b with
              | None => Raise (Exn ValueError
                  ("could not convert string to float: " ++ repr_str (text amount_b)))
              | Some b => Ok (t, a, b)
              end
          end
      end
  | fields =>
      if (Z.of_nat (List.length fields) <? 3)
      then Raise (Exn ValueError
             ("not enough values to unpack (expected 3, got "
                ++ dec (Z.of_nat (List.length fields)) ++ ")"))
      else Raise (Exn ValueError "too many values to unpack (expected 3)")
  end.

(** The loop over the lines: the first line that does not parse raises. *)
Fixpoint parse_lines (lines : list (list ascii)) : outcome (list entry) :=
  match lines with
  | [] => Ok []
  | line :: rest =>
      match parse_line line with
      | Raise e => Raise e
      | Ok x =>
          match parse_lines rest with
          | Raise e => Raise e
          | Ok xs => Ok (x :: xs)
          end
      end
  end.

(** [ActivityLog.readAll()]: lines 311-316 of [get_rebalance_insights]. *)
Definition readAll : M (list entry) :=
  fun w => (parse_lines (file_lines (log_file w)), w).

(** ** The signal (lines 320-332) *)

Module RebalanceSignal.

Record decision : Type := Decision { buy : bool; sell : bool; rebalance : bool }.

Definition window_size : Z := 10.

(** [data[-window_size:]] *)
Definition window (data : list entry) : list entry :=
  skipn (List.length data - Z.to_nat window_size) data.

(** [sum(xs)]: from the int 0, left to right. (CPython 3.12 and later
    compensate the rounding error of the partial sums; no property below
    depends on how the sums are rounded.) *)
Definition fsum (xs : list float) : float := fold_left PrimFloat.add xs zero.

Definition col_a (x : entry) : float := snd (fst x).
Definition col_b (x : entry) : float := snd x.

Definition avg_a (data : list entry) : float :=
  (fsum (map col_a (window data)) / 10)%float.
Definition avg_b (data : list entry) : float :=
  (fsum (map col_b (window data)) / 10)%float.

(** [data[-1]] of a list that is not empty. *)
Definition current (data : list entry) : entry := last data (0, zero, zero).

(** The literals [1.1] and [0.9], as binary64 reads them. *)
Definition f1_1 : float := 0x1.199999999999ap+0.
Definition f0_9 : float := 0x1.ccccccccccccdp-1.

(** The three tests of lines 327, 329 and 331; [x > y] is [y <? x]. *)
Definition buy_condition (data : list entry) : bool :=
  (avg_a data * f1_1 <? col_a (current data))%float.
Definition sell_condition (data : list entry) : bool :=
  (avg_b data * f1_1 <? col_b (current data))%float.
Definition rebalance_condition (data : list entry) : bool :=
  (col_a (current data) <? avg_a data * f0_9)%float
  || (col_b (current data) <? avg_b data * f0_9)%float.

(** [RebalanceSignal.evaluate()]: lines 320-332. *)
Definition evaluate (data : list entry) : decision :=
  if window_size <=? Z.of_nat (List.length data) then
    if buy_condition data then
      {| buy := true; sell := false; rebalance := false |}
    else if sell_condition data then
      {| buy := false; sell := true; rebalance := false |}
    else if rebalance_condition data then
      {| buy := false; sell := false; rebalance := true |}
    else {| buy := false; sell := false; rebalance := false |}
  else {| buy := false; sell := false; rebalance := false |}.

End RebalanceSignal.

(* ================================================================== *)
(** * The handlers *)
(* ================================================================== *)

Section Handlers.

(** What the process does not decide: the answer (a value or an
    exception) to each outside call, given the calls made before it; the
    clock; and the module's globals, read from [config.json] at start. *)
Variable extern : list call -> call -> outcome value.
Variable clock : list call -> float.
Variable config : value.
Variable wallet_address : value.
Variable private_key : value.
Variable pol_address : value.

(** An outside call: answered by [extern], recorded in the trace. *)
Definition ext (name : string) (args : list value) : M value :=
  fun w =>
    let c := Call name args in
    (extern (trace w) c, {| log_file := log_file w; trace := (trace w ++ [c])%list |}).

(** [time.time()] *)
Definition time_time : M float :=
  fun w =>
    (Ok (clock (trace w)),
     {| log_file := log_file w; trace := (trace w ++ [Call "time.time" []])%list |}).

(** [config[section][key]] *)
Definition config_get (section key : string) : M value :=
  sec <- lift (getitem config section) ;;
  lift (getitem sec key).

(** [jsonify({'error': 'Missing required parameters'}), 400] *)
Definition missing_parameters : value :=
  VTuple [jsonify [("error", VStr "Missing required parameters")]; VInt 400].

(** The [except Exception as e] branch of every handler that has one. *)
Definition on_error (what : string) (e : exn) : M value :=
  logger_error (what ++ exn_msg e)%string ;;
  ret (VTuple [jsonify [("error", VStr (exn_msg e))]; VInt 500]).

(** [int(time.time()) + seconds] *)
Definition deadline (seconds : Z) : M value :=
  t <- time_time ;;
  n <- lift (int (VFloat t)) ;;
  ret (VInt (n + seconds)).

(** [int(amount * balance / 10**18)] *)
Definition scaled_amount (amount balance : value) : M Z :=
  product <- lift (mul amount balance) ;;
  quotient <- lift (truediv product (VInt (10 ^ 18))) ;;
  lift (int quotient).

(** ** [POST /send] (lines 69-118) *)
Definition send_transaction (data : value) : M value :=
  recipient_address <- lift (get data "recipient_address") ;;
  amount_in_pol <- lift (get data "amount_in_pol") ;;
  if is_none recipient_address || is_none amount_in_pol then ret missing_parameters
  else
    try_except
      (value_wei <- ext "w3.utils.to_wei" [VStr (str amount_in_pol); VStr "ether"] ;;
       let tx := VDict [("to", recipient_address); ("value", value_wei)] in
       tx_hash <- ext "w3.eth.send_transaction" [tx] ;;
       ext "w3.eth.wait_for_transaction_receipt" [tx_hash] ;;
       logger_info ("Sent " ++ str amount_in_pol ++ " POL to " ++ str recipient_address)%string ;;
       now <- time_time ;;
       append_log (float_repr now ++ "," ++ str amount_in_pol ++ ","
                     ++ str recipient_address ++ nl)%string ;;
       hash <- ext "hex" [tx_hash] ;;
       ret (VTuple [jsonify [("transaction_hash", hash)]; VInt 200]))
      (on_error "Error sending transaction: ").

(** ** [GET /get-pol-price], first definition (lines 187-223) *)
Definition price_feed_abi_inline : value :=
  VList [VDict [("constant", VBool true); ("inputs", VList []);
                ("name", VStr "latestAnswer");
                ("outputs", VList [VDict [("name", VStr ""); ("type", VStr "int256")]]);
                ("payable", VBool false); ("stateMutability", VStr "view");
                ("type", VStr "function")]].

Definition get_pol_price_first : M value :=
  try_except
    (address <- config_get "contracts" "price_feed_address" ;;
     price_feed <- ext "w3.eth.contract" [address; price_feed_abi_inline] ;;
     answer <- ext "functions.latestAnswer.call" [price_feed] ;;
     price <- lift (truediv answer (VInt (10 ^ 8))) ;;
     now <- time_time ;;
     append_log (float_repr now ++ "," ++ str price ++ nl)%string ;;
     ret (VTuple [jsonify [("price", price)]; VInt 200]))
    (on_error "Error getting POL price: ").

(** The price read of lines 450-453 and 475-478. *)
Definition read_price_feed : M value :=
  abi_path <- config_get "uniswap" "price_feed_abi_path" ;;
  price_feed_abi <- ext "json.load(open)" [abi_path] ;;
  price_feed_address <- config_get "contracts" "price_feed_address" ;;
  price_feed_contract <- ext "w3.eth.contract" [price_feed_address; price_feed_abi] ;;
  answer <- ext "functions.latestAnswer.call" [price_feed_contract] ;;
  lift (truediv answer (VInt (10 ^ 8))).

(** ** [GET /get-pol-price], second definition (lines 439-462): the one
    the name [get_pol_price] is bound to once the module is loaded. *)
Definition get_pol_price : M value :=
  try_except
    (price <- read_price_feed ;;
     ret (VTuple [jsonify [("price", price)]; VInt 200]))
    (on_error "Error getting POL price: ").

(** ** [GET /get-dai-price] (lines 464-487) *)
Definition get_dai_price : M value :=
  try_except
    (price <- read_price_feed ;;
     ret (VTuple [jsonify [("price", price)]; VInt 200]))
    (on_error "Error getting DAI price: ").

(** ** [POST /buy-pol] (lines 120-185), for either binding [price_of] of
    the name [get_pol_price]. *)
Definition buy_pol_with (price_of : M value) (data : value) : M value :=
  amount_in_usd <- lift (get data "amount_in_usd") ;;
  if is_none amount_in_usd then ret missing_parameters
  else
    try_except
      (pol_price <- price_of ;;
       amount_in_pol <- lift (truediv amount_in_usd pol_price) ;;
       dai_address <- config_get "contracts" "dai_address" ;;
       abi_path <- config_get "uniswap" "router_abi_path" ;;
       router_abi <- ext "json.load(open)" [abi_path] ;;
       router_address <- config_get "contracts" "router_address" ;;
       router_contract <- ext "w3.eth.contract" [router_address; router_abi] ;;
       let path := VList [dai_address; pol_address] in
       amount_in <- ext "w3.toWei" [VStr (str amount_in_usd); VStr "ether"] ;;
       amounts <- ext "functions.getAmountsOut.call" [router_contract; amount_in; path] ;;
       amount_out <- lift (last_item amounts) ;;
       amount_in' <- ext "w3.toWei" [VStr (str amount_in_usd); VStr "ether"] ;;
       until <- deadline 100 ;;
       swap <- ext "functions.swapExactTokens"
                 [router_contract; amount_in'; amount_out; path; wallet_address; until] ;;
       nonce <- ext "w3.eth.get_transaction_count" [wallet_address] ;;
       tx <- ext "buildTransaction"
               [swap; VDict [("from", wallet_address); ("nonce", nonce)]] ;;
       signed_tx <- ext "w3.eth.account.sign_transaction" [tx; private_key] ;;
       raw <- ext "rawTransaction" [signed_tx] ;;
       tx_hash <- ext "w3.eth.send_raw_transaction" [raw] ;;
       ext "w3.eth.wait_for_transaction_receipt" [tx_hash] ;;
       logger_info ("Bought " ++ str amount_in_pol ++ " POL with "
                      ++ str amount_in_usd ++ " USD")%string ;;
       now <- time_time ;;
       append_log (float_repr now ++ "," ++ str amount_in_pol ++ ","
                     ++ str amount_in_usd ++ nl)%string ;;
       hash <- ext "hex" [tx_hash] ;;
       ret (VTuple [jsonify [("transaction_hash", hash)]; VInt 200]))
      (on_error "Error buying POL: ").

Definition buy_pol (data : value) : M value := buy_pol_with get_pol_price data.

(** ** [POST /rebalance] (lines 225-290) *)
Definition rebalance (data : value) : M value :=
  token_a <- lift (get data "token_a") ;;
  token_b <- lift (get data "token_b") ;;
  amount_a <- lift (get data "amount_a") ;;
  amount_b <- lift (get data "amount_b") ;;
  if negb (all [token_a; token_b; amount_a; amount_b]) then ret missing_parameters
  else
    try_except
      (token_a_balance <- ext "w3.eth.get_balance" [token_a] ;;
       token_b_balance <- ext "w3.eth.get_balance" [token_b] ;;
       amount_a_to_sell <- scaled_amount amount_a token_a_balance ;;
       amount_b_to_buy <- scaled_amount amount_b token_b_balance ;;
       router_address <- config_get "contracts" "router_address" ;;
       abi_path <- config_get "uniswap" "router_abi_path" ;;
       router_abi <- ext "json.load(open)" [abi_path] ;;
       router <- ext "w3.eth.contract" [router_address; router_abi] ;;
       until <- deadline 60 ;;
       add <- ext "functions.addLiquidity"
                [router; token_a; token_b; VInt amount_a_to_sell; VInt amount_b_to_buy;
                 VInt 1; VInt 1; wallet_address; until] ;;
       tx <- ext "transact" [add; VDict [("from", wallet_address)]] ;;
       tx_receipt <- ext "w3.eth.wait_for_transaction_receipt" [tx] ;;
       logger_info ("Rebalanced tokens: " ++ dec amount_a_to_sell ++ " of " ++ str token_a
                      ++ ", " ++ dec amount_b_to_buy ++ " of " ++ str token_b)%string ;;
       now <- time_time ;;
       append_log (float_repr now ++ "," ++ dec amount_a_to_sell ++ ","
                     ++ dec amount_b_to_buy ++ nl)%string ;;
       hash <- ext "transactionHash.hex" [tx_receipt] ;;
       ret (VTuple [jsonify [("transaction_hash", hash)]; VInt 200]))
      (on_error "Error rebalancing tokens: ").

(** ** [GET /rebalance-insights] (lines 292-339) *)
Definition insights_body (d : RebalanceSignal.decision) : value :=
  jsonify [("buy", VBool (RebalanceSignal.buy d)); ("sell", VBool (RebalanceSignal.sell d));
           ("rebalance", VBool (RebalanceSignal.rebalance d))].

Definition get_rebalance_insights : M value :=
  data <- readAll ;;
  ret (VTuple [insights_body (RebalanceSignal.evaluate data); VInt 200]).

(** ** [POST /auto-rebalance] (lines 341-414) *)

(** Lines 355-414: what follows [insights = insights_response.json()]. A
    function that ends without [return] returns [None]. *)
Definition auto_rebalance_after (insights data : value) : M value :=
  recommended <- lift (get insights "rebalance") ;;
  if truthy recommended then
    token_a <- lift (get data "token_a") ;;
    token_b <- lift (get data "token_b") ;;
    amount_a <- lift (get data "amount_a") ;;
    amount_b <- lift (get data "amount_b") ;;
    if negb (all [token_a; token_b; amount_a; amount_b]) then ret missing_parameters
    else
      try_except
        (token_a_balance <- ext "w3.eth.get_balance" [token_a] ;;
         token_b_balance <- ext "w3.eth.get_balance" [token_b] ;;
         amount_a_to_sell <- scaled_amount amount_a token_a_balance ;;
         amount_b_to_buy <- scaled_amount amount_b token_b_balance ;;
         abi_path <- config_get "uniswap" "router_abi_path" ;;
         router_abi <- ext "json.load(open)" [abi_path] ;;
         router_address <- config_get "contracts" "router_address" ;;
         router_contract <- ext "w3.eth.contract" [router_address; router_abi] ;;
         let path := VList [token_a; token_b] in
         amount_in <- ext "w3.utils.to_wei" [VStr (dec amount_a_to_sell); VStr "ether"] ;;
         amounts <- ext "functions.getAmountsOut.call" [router_contract; amount_in; path] ;;
         amount_out <- lift (last_item amounts) ;;
         amount_in' <- ext "w3.utils.to_wei" [VStr (dec amount_a_to_sell); VStr "ether"] ;;
         until <- deadline 100 ;;
         swap <- ext "functions.swapExactTokens"
                   [router_contract; amount_in'; amount_out; path; wallet_address; until] ;;
         nonce <- ext "w3.eth.get_transaction_count" [wallet_address] ;;
         tx <- ext "buildTransaction"
                 [swap; VDict [("from", wallet_address); ("nonce", nonce)]] ;;
         tx_hash <- ext "w3.eth.send_transaction" [tx] ;;
         ext "w3.eth.wait_for_transaction_receipt" [tx_hash] ;;
         logger_info ("Auto-rebalanced " ++ dec amount_a_to_sell ++ " " ++ str token_a
                        ++ " for " ++ dec amount_b_to_buy ++ " " ++ str token_b)%string ;;
         hash <- ext "hex" [tx_hash] ;;
         ret (VTuple [jsonify [("transaction_hash", hash)]; VInt 200]))
        (on_error "Error auto-rebalancing: ")
  else ret VNone.

Definition auto_rebalance (data : value) : M value :=
  insights_response <- get_rebalance_insights ;;
  insights <- lift (call_json insights_response) ;;
  auto_rebalance_after insights data.

(** ** [GET /log] (lines 416-437) *)
Definition get_log : M value :=
  try_except
    (log <- read_log ;;
     ret (VTuple [jsonify [("log", VStr log)]; VInt 200]))
    (on_error "Error reading log: ").

(** ** The mutating endpoints and the fields each requires *)

Inductive endpoint : Type := Send | BuyPol | Rebalance | AutoRebalance.

Definition required (ep : endpoint) : list string :=
  match ep with
  | Send => ["recipient_address"; "amount_in_pol"]
  | BuyPol => ["amount_in_usd"]
  | Rebalance | AutoRebalance => ["token_a"; "token_b"; "amount_a"; "amount_b"]
  end.

Definition handle (ep : endpoint) (data : value) : M value :=
  match ep with
  | Send => send_transaction data
  | BuyPol => buy_pol data
  | Rebalance => rebalance data
  | AutoRebalance => auto_rebalance data
  end.

End Handlers.

(** A payload that is a JSON object in which field [f] is absent. *)
Definition lacks (data : value) (f : string) : Prop :=
  exists kvs, data = VDict kvs /\ assoc f kvs = None.

(** A payload that is a JSON object in which field [f] is present with
    a value that tests false: [0], [0.0], [''], [false], [[]], [{}],
    [null]. *)
Definition falsy_at (data : value) (f : string) : Prop :=
  exists kvs v, data = VDict kvs /\ assoc f kvs = Some v /\ truthy v = false.

(** A line of the log that is not [int,float,float]: the wrong number of
    fields, or a field that does not convert. *)
Definition malformed (line : list ascii) : bool :=
  match split "," (strip line) with
  | [timestamp; amount_a; amount_b] =>
      match int_of_str timestamp, float_of_str amount_a, float_of_str amount_b with
      | Some _, Some _, Some _ => false
      | _, _, _ => true
      end
  | _ => true
  end.

(** The decision that recommends nothing. *)
Definition no_action : RebalanceSignal.decision :=
  {| RebalanceSignal.buy := false; RebalanceSignal.sell := false;
     RebalanceSignal.rebalance := false |}.

(** What a handler answers: [(jsonify(body), status)]. *)
Definition is_pair (v : value) : Prop :=
  exists body status, v = VTuple [VResponse body; VInt status].

(** The message of the [TypeError] that dividing [amount] by a pair
    raises. *)
Definition pair_divisor_message (amount : value) : string :=
  ("unsupported operand type(s) for /: '" ++ type_name amount ++ "' and 'tuple'")%string.

(** The [AttributeError] of [insights_response.json()] (line 352). *)
Definition no_json : exn := Exn AttributeError "'tuple' object has no attribute 'json'".

(** ** A sample environment, for the examples *)

(** A payload with every field of [POST /rebalance], one amount zero. *)
Definition zero_amount_payload : value :=
  VDict [("token_a", VStr "0xA"); ("token_b", VStr "0xB");
         ("amount_a", VInt 0); ("amount_b", VInt 1)].


Definition sample_chain (history : list call) (c : call) : outcome value :=
  if String.eqb (call_name c) "w3.eth.get_balance" then Ok (VInt (3 * 10 ^ 18))
  else if String.eqb (call_name c) "functions.latestAnswer.call" then Ok (VInt 51234567)
  else if String.eqb (call_name c) "functions.getAmountsOut.call"
  then Ok (VList [VInt 1; VInt 2])
  else if String.eqb (call_name c) "hex" then Ok (VStr "0xabc")
  else if String.eqb (call_name c) "transactionHash.hex" then Ok (VStr "0xabc")
  else Ok (VStr "object").

Definition sample_clock (history : list call) : float := 1700000000.5%float.

Definition sample_config : value :=
  VDict [("contracts", VDict [("router_address", VStr "0xR"); ("dai_address", VStr "0xD");
                              ("price_feed_address", VStr "0xF")]);
         ("uniswap", VDict [("router_abi_path", VStr "router.json");
                            ("price_feed_abi_path", VStr "feed.json")])].

Definition sample_wallet : value := VStr "0xW".
Definition sample_key : value := VStr "key".
Definition sample_pol : value := VStr "0xP".

Definition sample_payload : value :=
  VDict [("token_a", VStr "0xA"); ("token_b", VStr "0xB");
         ("amount_a", VInt 2); ("amount_b", VFloat 1.5)].

Definition empty_world : world := World "" [].

Fixpoint lines_of (n : nat) (line : string) : string :=
  match n with O => "" | S k => (line ++ nl ++ lines_of k line)%string end.

(** A well-formed log of ten lines whose last second amount is far
    below the average: the signal recommends a rebalance. *)
Definition ten_lines : string := (lines_of 9 "1,100,100" ++ "2,100,10" ++ nl)%string.

(** The same with a last first amount far above the average as well. *)
Definition ten_lines_high : string := (lines_of 9 "1,100,100" ++ "2,200,10" ++ nl)%string.

(** ** Vocabulary of the proofs *)

(** The characters [repr] of a float is made of. *)
Definition float_alphabet : list ascii := chars "0123456789.e+-infa".
Definition in_alphabet (c : ascii) : bool := existsb (Ascii.eqb c) float_alphabet.

(** One of them is in every such text. *)
Definition is_mark (c : ascii) : bool := existsb (Ascii.eqb c) (chars ".en").

(** The characters [int()] accepts somewhere in a text. *)
Definition digit_like (c : ascii) : bool :=
  Ascii.eqb c "_" || match digit_of c with Some _ => true | None => false end.
Definition int_char (c : ascii) : bool :=
  is_space c || existsb (Ascii.eqb c) (chars "+-_")
  || match digit_of c with Some _ => true | None => false end.

(** A computation that leaves the log file as it is. *)
Definition log_kept {A : Type} (m : M A) : Prop :=
  forall w r w', m w = (r, w') -> log_file w' = log_file w.

Create HintDb log.

(** Runs the next [x <- lift (get data f)] of a handler, given the
    value [H] says the lookup yields. *)
Ltac run_get H := unfold bind at 1; unfold lift at 1; rewrite H.

(** Opens the next [x <- m ;; k] of a run [H] that returned a value, with
    the inversion lemma [inv] of [bind], and keeps of the step [m] what
    it did to the log: an append ([appended]) or nothing ([kept]). *)
Ltac peel_with inv appended kept H :=
  apply inv in H;
  let a := fresh "a" in
  let w := fresh "w" in
  let E := fresh "E" in
  destruct H as [a [w [E H]]];
  first [ apply appended in E
        | apply kept in E; [| solve [auto with log] ] ].

(** Rewrites the log of each world met into the log of the one before. *)
Ltac chain_logs :=
  repeat match goal with
         | E : log_file _ = _ |- _ => rewrite E; clear E
         end.

(** The characters of a text that [int()] or [float()] converts: white
    space, digits, signs, the underscore, the point, the exponent mark
    and the letters of [inf], [infinity] and [nan], in either case. *)
Definition numeric_char (c : ascii) : bool :=
  is_space c || existsb (Ascii.eqb c) (chars "0123456789+-_.eEiInNfFtTyYaA").

(** The characters of a log that [readAll()] reads: those, and the
    comma. *)
Definition log_char (c : ascii) : bool := numeric_char c || Ascii.eqb c ",".

(** The letters of [inf], [infinity] and [nan], and the exponent mark. *)
Definition special_letter (c : ascii) : bool :=
  existsb (Ascii.eqb c) (chars "infinityane").

(** A text with a character no readable log has. *)
Definition stray (s : string) : Prop :=
  exists c, In c (chars s) /\ log_char c = false.

(** Finds the stray character of a text built by [++] from literals and
    unknown parts: it is the first or second character of a literal. *)
Ltac find_stray_with left_lemma right_lemma :=
  first [ solve [eexists; split; [simpl; left; reflexivity | reflexivity]]
        | solve [eexists; split; [simpl; right; left; reflexivity | reflexivity]]
        | match goal with
          | |- stray (_ ++ _)%string =>
              first [ solve [apply left_lemma; find_stray_with left_lemma right_lemma]
                    | solve [apply right_lemma; find_stray_with left_lemma right_lemma] ]
          end ].

(** A payload that is a JSON object: the only one with a [get]. *)
Definition is_object (v : value) : bool :=
  match v with VDict _ => true | _ => false end.

(** The values [*] and [/] treat as numbers. *)
Definition is_number (v : value) : bool :=
  match v with VInt _ | VFloat _ | VBool _ => true | _ => false end.

(** A computation only adds to the trace of outside calls. *)
Definition trace_grows {A : Type} (m : M A) : Prop :=
  forall w r w', m w = (r, w') -> exists cs, trace w' = (trace w ++ cs)%list.

Create HintDb calls.

(** Proves [trace_grows] of a chain of [x <- m ;; k], step by step, with
    the lemma [bind_lemma] of [bind]. *)
Ltac grow_with bind_lemma :=
  repeat (apply bind_lemma; [solve [auto with calls] | intros]); auto with calls.

(** What each handler with a [try] writes before the message of the
    exception it caught (lines 115, 182, 287, 411). *)
Definition error_prefix (ep : endpoint) : string :=
  match ep with
  | Send => "Error sending transaction: "
  | BuyPol => "Error buying POL: "
  | Rebalance => "Error rebalancing tokens: "
  | AutoRebalance => "Error auto-rebalancing: "
  end.

(** An answer of the API: a body with the status 200, 400 or 500. *)
Definition is_answer (v : value) : Prop :=
  exists body status,
    v = VTuple [VResponse body; VInt status]
    /\ (status = 200 \/ status = 400 \/ status = 500).

(** A [try] body that ran to its [return] answered 200: opens its steps
    with the inversion lemma [inv] of [bind]. *)
Ltac ok_answer_with inv :=
  let H := fresh "H" in
  intros ? ? H;
  repeat (apply inv in H; destruct H as [? [? [_ H]]]);
  inversion H; eexists; eexists; split; [reflexivity | left; reflexivity].

(** A log to which a line can be appended as a line of its own: empty,
    or ended by a newline. *)
Definition complete_log (log : string) : Prop :=
  log = EmptyString \/ exists b, log = (b ++ nl)%string.

(** A character that ends no line. *)
Definition within_line (c : ascii) : bool :=
  negb (Ascii.eqb c "010") && negb (Ascii.eqb c "013").

(** ** More of the sample environment *)

(** A chain client that cannot reach its node. *)
Definition unreachable_chain (history : list call) (c : call) : outcome value :=
  Raise (Exn (OtherError "ConnectionError") "no route").

Definition send_payload : value :=
  VDict [("recipient_address", VStr "0xA"); ("amount_in_pol", VInt 1)].

(** Both fields of [POST /send] present and false. *)
Definition falsy_send_payload : value :=
  VDict [("recipient_address", VStr EmptyString); ("amount_in_pol", VInt 0)].

(** The payload of [POST /rebalance] with a first amount sent as text. *)
Definition text_amount_payload : value :=
  VDict [("token_a", VStr "0xA"); ("token_b", VStr "0xB");
         ("amount_a", VStr "2"); ("amount_b", VInt 1)].

(** Ten entries, the last second amount far below the average. *)
Definition flat_entries : list entry :=
  (List.repeat (1, 100%float, 100%float) 9 ++ [(2, 100%float, 10%float)])%list.

(* ================================================================== *)
(** * Properties *)
(* ================================================================== *)

(** ** The built-ins on sample inputs *)

Example int_of_str_samples :
  map (fun s => int_of_str (chars s)) [" 12 "; "-0_7"; "1_"; "1.0"; ""; "1700000000.5"]
  = [Some 12; Some (-7); None; None; None; None].
Proof. reflexivity. Qed.

Example float_of_str_samples :
  map (fun s => float_of_str (chars s)) ["1.5"; " 6e1 "; ".5"; "1_0.2_5"; "1e"; "0xA"; ""]
  = [Some 1.5%float; Some 60%float; Some 0.5%float; Some 10.25%float; None; None; None].
Proof. vm_compute. reflexivity. Qed.

Example float_of_str_rounds :
  float_of_str (chars "0.1") = Some 0x1.999999999999ap-4%float
  /\ float_of_str (chars "1e23") = Some 0x1.52d02c7e14af6p+76%float
  /\ float_of_str (chars "1e400") = Some infinity.
Proof. vm_compute. repeat split. Qed.

Example float_repr_samples :
  map float_repr [0x1.999999999999ap-4; 100; 1e16; 1e15; 0x1p-1074; 1700000000.5;
                  0x1.4p-16; neg_zero; infinity; nan]%float
  = ["0.1"; "100.0"; "1e+16"; "1000000000000000.0"; "5e-324"; "1700000000.5";
     "1.9073486328125e-05"; "-0.0"; "inf"; "nan"].
Proof. vm_compute. reflexivity. Qed.

Example repr_samples :
  map repr [VStr "it's"; VList [VInt 1; VFloat 2.5; VNone; VBool true];
            VDict [("a", VInt 1)]; VTuple [VInt 1]]
  = [text [quote2; "i"; "t"; quote1; "s"; quote2]%char; "[1, 2.5, None, True]";
     "{'a': 1}"; "(1,)"].
Proof. vm_compute. reflexivity. Qed.

Example file_lines_samples :
  map text (file_lines ("a,b" ++ nl ++ nl ++ "c"))
  = [("a,b" ++ nl)%string; nl; "c"].
Proof. reflexivity. Qed.

Example band_literals :
  float_of_str (chars "1.1") = Some RebalanceSignal.f1_1
  /\ float_of_str (chars "0.9") = Some RebalanceSignal.f0_9.
Proof. vm_compute. split; reflexivity. Qed.

(** ** The monad *)

Lemma bind_ok_inv {A B : Type} (m : M A) (k : A -> M B) (w w' : world) (b : B) :
  bind m k w = (Ok b, w') -> exists a w1, m w = (Ok a, w1) /\ k a w1 = (Ok b, w').
Proof.
  unfold bind. destruct (m w) as [[a | e] w1]; intros H.
  - exists a, w1. split; [reflexivity | exact H].
  - discriminate.
Qed.

Lemma try_raise {A : Type} (m : M A) (h : exn -> M A) (w w' : world) (e : exn) :
  m w = (Raise e, w') -> try_except m h w = h e w'.
Proof. intros H. unfold try_except. rewrite H. reflexivity. Qed.

Lemma try_ok_inv {A : Type} (body : M A) (h : exn -> M A) (w w' : world) (v : A) :
  try_except body h w = (Ok v, w') ->
  body w = (Ok v, w') \/ exists e w1, body w = (Raise e, w1) /\ h e w1 = (Ok v, w').
Proof.
  unfold try_except. destruct (body w) as [[a | e] w1]; intros H.
  - left. exact H.
  - right. exists e, w1. split; [reflexivity | exact H].
Qed.

(** ** What a step does to the log *)

Lemma log_kept_ret {A : Type} (a : A) : log_kept (ret a).
Proof. intros w r w' H. inversion H. reflexivity. Qed.

Lemma log_kept_lift {A : Type} (r : outcome A) : log_kept (lift r).
Proof. intros w r' w' H. inversion H. reflexivity. Qed.

Lemma log_kept_bind {A B : Type} (m : M A) (k : A -> M B) :
  log_kept m -> (forall a, log_kept (k a)) -> log_kept (bind m k).
Proof.
  intros Hm Hk w r w' H. unfold bind in H.
  destruct (m w) as [[a | e] w1] eqn:E.
  - rewrite (Hk a _ _ _ H). apply (Hm _ _ _ E).
  - inversion H; subst. apply (Hm _ _ _ E).
Qed.

Lemma log_kept_ext (extern : list call -> call -> outcome value)
      (name : string) (args : list value) :
  log_kept (ext extern name args).
Proof. intros w r w' H. unfold ext in H. inversion H. reflexivity. Qed.

Lemma log_kept_time (clock : list call -> float) : log_kept (time_time clock).
Proof. intros w r w' H. unfold time_time in H. inversion H. reflexivity. Qed.

#[local] Hint Resolve log_kept_ret log_kept_lift log_kept_ext log_kept_time : log.

Lemma log_kept_config_get (config : value) (section key : string) :
  log_kept (config_get config section key).
Proof. unfold config_get. apply log_kept_bind; auto with log. Qed.

Lemma log_kept_deadline (clock : list call -> float) (seconds : Z) :
  log_kept (deadline clock seconds).
Proof.
  unfold deadline. apply log_kept_bind; auto with log.
  intros t. apply log_kept_bind; auto with log.
Qed.

Lemma log_kept_scaled_amount (amount balance : value) :
  log_kept (scaled_amount amount balance).
Proof.
  unfold scaled_amount. apply log_kept_bind; auto with log.
  intros p. apply log_kept_bind; auto with log.
Qed.

#[local] Hint Resolve log_kept_config_get log_kept_deadline log_kept_scaled_amount : log.

Lemma kept {A : Type} (m : M A) (w w' : world) (r : outcome A) :
  log_kept m -> m w = (r, w') -> log_file w' = log_file w.
Proof. intros H E. apply (H _ _ _ E). Qed.

Lemma append_log_inv (s : string) (w w' : world) (r : outcome unit) :
  append_log s w = (r, w') -> log_file w' = (log_file w ++ s)%string.
Proof. intros H. inversion H. reflexivity. Qed.

Lemma append_assoc (a b c : string) : ((a ++ b) ++ c = a ++ (b ++ c))%string.
Proof. induction a as [|x a IH]; simpl; [reflexivity | rewrite IH; reflexivity]. Qed.

(** ** Truth values and fields *)

Lemma all_false_of_falsy (xs : list value) (v : value) :
  In v xs -> truthy v = false -> all xs = false.
Proof.
  unfold all. induction xs as [|x xs IH]; simpl; intros Hin Hv.
  - contradiction.
  - destruct Hin as [-> | Hin].
    + rewrite Hv. reflexivity.
    + rewrite (IH Hin Hv). apply andb_false_r.
Qed.

Lemma get_lacks (data : value) (f : string) :
  lacks data f -> get data f = Ok VNone.
Proof. intros [kvs [-> H]]. simpl. rewrite H. reflexivity. Qed.

Lemma get_falsy (data : value) (f : string) :
  falsy_at data f -> exists v, get data f = Ok v /\ truthy v = false.
Proof.
  intros [kvs [v [-> [H Hv]]]]. exists v. simpl. rewrite H. split; [reflexivity | exact Hv].
Qed.

Lemma get_dict_total (kvs : list (string * value)) (f : string) :
  exists v, get (VDict kvs) f = Ok v.
Proof. simpl. eexists. reflexivity. Qed.

(** ** The text of a float is never the text of an int *)

Lemma chars_app (a b : string) : chars (a ++ b) = (chars a ++ chars b)%list.
Proof.
  unfold chars. induction a as [|c a IH]; simpl; [reflexivity | rewrite IH; reflexivity].
Qed.

Lemma chars_text (l : list ascii) : chars (text l) = l.
Proof. apply list_ascii_of_string_of_list_ascii. Qed.

Lemma in_firstn {A : Type} (n : nat) (l : list A) (x : A) : In x (firstn n l) -> In x l.
Proof. intros H. rewrite <- (firstn_skipn n l). apply in_or_app. left. exact H. Qed.

Lemma in_skipn {A : Type} (n : nat) (l : list A) (x : A) : In x (skipn n l) -> In x l.
Proof. intros H. rewrite <- (firstn_skipn n l). apply in_or_app. right. exact H. Qed.

Lemma uint_chars (u : Decimal.uint) (c : ascii) :
  In c (chars (NilEmpty.string_of_uint u)) -> in_alphabet c = true.
Proof.
  induction u; simpl; intros H; try contradiction;
    (destruct H as [<- | H]; [reflexivity | apply IHu; exact H]).
Qed.

Lemma dec_chars (z : Z) (c : ascii) : In c (chars (dec z)) -> in_alphabet c = true.
Proof.
  unfold dec, NilZero.string_of_int, NilZero.string_of_uint.
  destruct (Z.to_int z) as [u | u]; destruct u; simpl; intros H;
    repeat (destruct H as [<- | H]; [reflexivity |]);
    try contradiction; try (apply (uint_chars _ _ H)).
Qed.

Lemma zeros_chars (n : Z) (c : ascii) : In c (chars (zeros n)) -> in_alphabet c = true.
Proof.
  unfold zeros. rewrite chars_text. intros H. apply repeat_spec in H. subst. reflexivity.
Qed.

Lemma float_layout_chars (ds : list ascii) (decpt : Z) :
  (forall c, In c ds -> in_alphabet c = true) ->
  forall c, In c (chars (float_layout ds decpt)) -> in_alphabet c = true.
Proof.
  intros Hds c. unfold float_layout.
  destruct ((decpt <=? -4) || (16 <? decpt)).
  - repeat rewrite chars_app. repeat rewrite in_app_iff.
    intros [H | [H | [H | [H | H]]]].
    + destruct ds as [|d [|d' r]]; simpl in H.
      * contradiction.
      * destruct H as [<- | []]. apply Hds. left. reflexivity.
      * rewrite chars_text in H. destruct H as [<- | [<- | H]].
        -- apply Hds. left. reflexivity.
        -- reflexivity.
        -- apply Hds. right. exact H.
    + destruct H as [<- | []]. reflexivity.
    + destruct (decpt - 1 <? 0); destruct H as [<- | []]; reflexivity.
    + destruct (Z.abs (decpt - 1) <? 10); simpl in H;
        [destruct H as [<- | []]; reflexivity | contradiction].
    + apply (dec_chars _ _ H).
  - destruct (decpt <=? 0).
    + repeat rewrite chars_app. repeat rewrite in_app_iff. rewrite chars_text.
      intros [H | [H | H]].
      * simpl in H. destruct H as [<- | [<- | []]]; reflexivity.
      * apply (zeros_chars _ _ H).
      * apply Hds; exact H.
    + destruct (Z.of_nat (List.length ds) <=? decpt).
      * repeat rewrite chars_app. repeat rewrite in_app_iff. rewrite chars_text.
        intros [H | [H | H]].
        -- apply Hds; exact H.
        -- apply (zeros_chars _ _ H).
        -- simpl in H. destruct H as [<- | [<- | []]]; reflexivity.
      * repeat rewrite chars_app. repeat rewrite in_app_iff. repeat rewrite chars_text.
        intros [H | [H | H]].
        -- apply Hds. apply (in_firstn _ _ _ H).
        -- simpl in H. destruct H as [<- | []]; reflexivity.
        -- apply Hds. apply (in_skipn _ _ _ H).
Qed.

(** Every character of [repr(x)] is a digit or one of [.e+-infa]. *)
Lemma float_repr_chars (x : float) (c : ascii) :
  In c (chars (float_repr x)) -> in_alphabet c = true.
Proof.
  unfold float_repr. destruct (Prim2SF x) as [s | s | | s m e].
  - destruct s; simpl; intros H;
      repeat (destruct H as [<- | H]; [reflexivity |]); contradiction.
  - destruct s; simpl; intros H;
      repeat (destruct H as [<- | H]; [reflexivity |]); contradiction.
  - simpl; intros H; repeat (destruct H as [<- | H]; [reflexivity |]); contradiction.
  - destruct (shortest _ _ _) as [d k].
    destruct s.
    + rewrite chars_app. rewrite in_app_iff. intros [H | H].
      * simpl in H. destruct H as [<- | []]. reflexivity.
      * revert H. apply float_layout_chars. intros c'. apply dec_chars.
    + apply float_layout_chars. intros c'. apply dec_chars.
Qed.

Lemma float_layout_mark (ds : list ascii) (decpt : Z) :
  exists c, In c (chars (float_layout ds decpt)) /\ is_mark c = true.
Proof.
  unfold float_layout.
  destruct ((decpt <=? -4) || (16 <? decpt));
    [|destruct (decpt <=? 0); [|destruct (Z.of_nat (List.length ds) <=? decpt)]].
  - exists "e"%char. split; [|reflexivity].
    repeat rewrite chars_app. repeat rewrite in_app_iff. right. left. left. reflexivity.
  - exists "."%char. split; [|reflexivity].
    repeat rewrite chars_app. repeat rewrite in_app_iff. left. right. left. reflexivity.
  - exists "."%char. split; [|reflexivity].
    repeat rewrite chars_app. repeat rewrite in_app_iff. right. right. left. reflexivity.
  - exists "."%char. split; [|reflexivity].
    repeat rewrite chars_app. repeat rewrite in_app_iff. right. left. left. reflexivity.
Qed.

(** [repr(x)] has a point, an [e] or an [n] (of [inf] and [nan]). *)
Lemma float_repr_mark (x : float) :
  exists c, In c (chars (float_repr x)) /\ is_mark c = true.
Proof.
  unfold float_repr. destruct (Prim2SF x) as [s | s | | s m e].
  - exists "."%char. destruct s; simpl; auto.
  - exists "n"%char. destruct s; simpl; auto.
  - exists "n"%char. simpl; auto.
  - destruct (shortest _ _ _) as [d k].
    destruct (float_layout_mark (chars (dec d))
                (Z.of_nat (List.length (chars (dec d))) + k)) as [c [Hc Hm]].
    exists c. split; [|exact Hm].
    destruct s; [|exact Hc].
    rewrite chars_app. apply in_or_app. right. exact Hc.
Qed.

Lemma alphabet_plain (c : ascii) :
  in_alphabet c = true ->
  is_space c = false /\ Ascii.eqb c "," = false
  /\ Ascii.eqb c "010" = false /\ Ascii.eqb c "013" = false.
Proof.
  unfold in_alphabet. simpl. intros H.
  repeat (apply orb_true_iff in H; destruct H as [H | H];
          [apply Ascii.eqb_eq in H; subst; repeat split |]).
  discriminate.
Qed.

Lemma mark_not_int_char (c : ascii) : is_mark c = true -> int_char c = false.
Proof.
  unfold is_mark. simpl. intros H.
  repeat (apply orb_true_iff in H; destruct H as [H | H];
          [apply Ascii.eqb_eq in H; subst; reflexivity |]).
  discriminate.
Qed.

(** What [strip], the sign and a [digitpart] leave of a text. *)

Lemma lstrip_in (l : list ascii) (c : ascii) :
  In c l -> is_space c = true \/ In c (lstrip l).
Proof.
  induction l as [|a l IH]; simpl; intros H; [contradiction|].
  destruct (is_space a) eqn:E.
  - destruct H as [<- | H]; [left; exact E | apply IH; exact H].
  - right. exact H.
Qed.

Lemma strip_in (l : list ascii) (c : ascii) :
  In c l -> is_space c = true \/ In c (strip l).
Proof.
  intros H. unfold strip, rstrip.
  destruct (lstrip_in l c H) as [Hs | H1]; [left; exact Hs|].
  apply in_rev in H1. destruct (lstrip_in _ c H1) as [Hs | H2]; [left; exact Hs|].
  right. apply in_rev in H2. exact H2.
Qed.

Lemma read_sign_in (l body : list ascii) (neg : bool) (c : ascii) :
  read_sign l = (neg, body) ->
  In c l -> existsb (Ascii.eqb c) (chars "+-_") = true \/ In c body.
Proof.
  unfold read_sign. destruct l as [|a l]; [intros _ []|].
  destruct (Ascii.eqb a "-") eqn:E1; [|destruct (Ascii.eqb a "+") eqn:E2];
    intros H; injection H as <- <-; intros [<- | H'].
  - apply Ascii.eqb_eq in E1. subst. left. reflexivity.
  - right. exact H'.
  - apply Ascii.eqb_eq in E2. subst. left. reflexivity.
  - right. exact H'.
  - right. left. reflexivity.
  - right. right. exact H'.
Qed.

Lemma digit_tail_in (n : nat) :
  forall (l rest : list ascii) (ds : list Z) (c : ascii),
    (List.length l <= n)%nat ->
    digit_tail l = (ds, rest) -> In c l -> digit_like c = true \/ In c rest.
Proof.
  induction n as [|n IH]; intros l rest ds c Hlen Hdt Hin.
  - destruct l; [contradiction | simpl in Hlen; lia].
  - destruct l as [|a l]; [contradiction|].
    simpl in Hdt. simpl in Hlen.
    destruct (digit_of a) eqn:Ea.
    + destruct (digit_tail l) as [ds' rest'] eqn:Et. inversion Hdt; subst.
      destruct Hin as [<- | Hin].
      * left. unfold digit_like. rewrite Ea. apply orb_true_r.
      * apply (IH l rest ds' c); [lia | exact Et | exact Hin].
    + destruct (Ascii.eqb a "_") eqn:Eu.
      * destruct l as [|b l].
        -- inversion Hdt; subst. right. exact Hin.
        -- destruct (digit_of b) eqn:Eb.
           ++ destruct (digit_tail l) as [ds' rest'] eqn:Et. inversion Hdt; subst.
              destruct Hin as [<- | [<- | Hin]].
              ** left. unfold digit_like. rewrite Eu. reflexivity.
              ** left. unfold digit_like. rewrite Eb. apply orb_true_r.
              ** apply (IH l rest ds' c); [simpl in Hlen; lia | exact Et | exact Hin].
           ++ inversion Hdt; subst. right. exact Hin.
      * inversion Hdt; subst. right. exact Hin.
Qed.

Lemma digitpart_in (l : list ascii) (ds : list Z) (c : ascii) :
  digitpart l = Some (ds, []) -> In c l -> digit_like c = true.
Proof.
  unfold digitpart. destruct l as [|a l]; [discriminate|].
  destruct (digit_of a) eqn:Ea; [|discriminate].
  destruct (digit_tail l) as [ds' rest] eqn:Et. intros H. inversion H; subst.
  intros [<- | Hin].
  - unfold digit_like. rewrite Ea. apply orb_true_r.
  - destruct (digit_tail_in (List.length l) l [] ds' c (le_n _) Et Hin) as [Hd | []].
    exact Hd.
Qed.

(** A text [int()] accepts is made of blanks, signs, underscores and
    digits. *)
Lemma int_of_str_chars (l : list ascii) (z : Z) (c : ascii) :
  int_of_str l = Some z -> In c l -> int_char c = true.
Proof.
  unfold int_of_str. destruct (read_sign (strip l)) as [neg body] eqn:Es.
  destruct (digitpart body) as [[ds rest]|] eqn:Ed; [|discriminate].
  destruct rest; [|discriminate]. intros _ Hin.
  unfold int_char.
  destruct (strip_in l c Hin) as [Hs | H1]; [rewrite Hs; reflexivity|].
  destruct (read_sign_in _ _ _ c Es H1) as [Hsg | H2].
  - rewrite Hsg. rewrite orb_true_r. reflexivity.
  - pose proof (digitpart_in body ds c Ed H2) as Hd. unfold digit_like in Hd.
    apply orb_true_iff in Hd. destruct Hd as [Hu | Hd].
    + apply Ascii.eqb_eq in Hu. subst. reflexivity.
    + rewrite Hd. apply orb_true_r.
Qed.

(** [int(str(x))] raises for every float [x]. *)
Lemma float_repr_not_int (x : float) : int_of_str (chars (float_repr x)) = None.
Proof.
  destruct (int_of_str (chars (float_repr x))) as [z|] eqn:E; [|reflexivity].
  destruct (float_repr_mark x) as [c [Hin Hm]].
  pose proof (int_of_str_chars _ z c E Hin) as Hi.
  rewrite (mark_not_int_char c Hm) in Hi. discriminate.
Qed.

(** ** Parsing the log *)

Lemma parse_line_malformed (line : list ascii) :
  malformed line = true -> exists msg, parse_line line = Raise (Exn ValueError msg).
Proof.
  unfold malformed, parse_line.
  destruct (split "," (strip line)) as [|t [|a [|b [|x r]]]]; intros H;
    try (simpl; eexists; reflexivity).
  - destruct (int_of_str t); [|eexists; reflexivity].
    destruct (float_of_str a); [|eexists; reflexivity].
    destruct (float_of_str b); [discriminate|eexists; reflexivity].
  - match goal with
    | |- context [if ?c then _ else _] => destruct c
    end; eexists; reflexivity.
Qed.

Lemma parse_line_ok (line : list ascii) :
  malformed line = false -> exists x, parse_line line = Ok x.
Proof.
  unfold malformed, parse_line.
  destruct (split "," (strip line)) as [|t [|a [|b [|x r]]]]; intros H; try discriminate.
  destruct (int_of_str t); [|discriminate].
  destruct (float_of_str a); [|discriminate].
  destruct (float_of_str b); [|discriminate].
  eexists; reflexivity.
Qed.

Lemma parse_lines_malformed (lines : list (list ascii)) :
  existsb malformed lines = true ->
  exists msg, parse_lines lines = Raise (Exn ValueError msg).
Proof.
  induction lines as [|line rest IH]; simpl; intros H.
  - discriminate.
  - destruct (malformed line) eqn:E.
    + destruct (parse_line_malformed line E) as [msg ->]. exists msg. reflexivity.
    + destruct (parse_line_ok line E) as [x ->]. simpl in H.
      destruct (IH H) as [msg ->]. exists msg. reflexivity.
Qed.

Lemma parse_lines_wellformed (lines : list (list ascii)) :
  existsb malformed lines = false ->
  exists data, parse_lines lines = Ok data /\ List.length data = List.length lines.
Proof.
  induction lines as [|line rest IH]; simpl; intros H.
  - exists []. split; reflexivity.
  - apply orb_false_iff in H. destruct H as [E H].
    destruct (parse_line_ok line E) as [x ->].
    destruct (IH H) as [data [-> Hl]]. exists (x :: data). simpl. split; congruence.
Qed.

Lemma malformed_line_raises (w : world) (line : list ascii) :
  In line (file_lines (log_file w)) ->
  malformed line = true ->
  exists msg, readAll w = (Raise (Exn ValueError msg), w).
Proof.
  intros Hin Hbad.
  assert (Hex : existsb malformed (file_lines (log_file w)) = true).
  { apply existsb_exists. exists line. split; assumption. }
  destruct (parse_lines_malformed _ Hex) as [msg Hmsg].
  exists msg. unfold readAll. rewrite Hmsg. reflexivity.
Qed.



(** ** A line that starts with the text of a float *)

Lemma lstrip_app_nonspace (a b : list ascii) (c : ascii) :
  is_space c = false -> lstrip (a ++ c :: b) = (lstrip a ++ c :: b)%list.
Proof.
  intros Hc. induction a as [|x a IH]; simpl.
  - rewrite Hc. reflexivity.
  - destruct (is_space x); [exact IH | reflexivity].
Qed.

Lemma rstrip_app_nonspace (p r : list ascii) (c : ascii) :
  is_space c = false -> rstrip (p ++ c :: r) = (p ++ c :: rstrip r)%list.
Proof.
  intros Hc. unfold rstrip.
  rewrite rev_app_distr. simpl. rewrite <- app_assoc. simpl.
  rewrite (lstrip_app_nonspace _ _ c Hc).
  rewrite rev_app_distr. simpl. rewrite rev_involutive. rewrite <- app_assoc. reflexivity.
Qed.

Lemma split_prefix (sep : ascii) (f r : list ascii) :
  (forall c, In c f -> Ascii.eqb c sep = false) ->
  split sep (f ++ sep :: r) = f :: split sep r.
Proof.
  induction f as [|x f IH]; intros Hf; simpl.
  - rewrite Ascii.eqb_refl. reflexivity.
  - rewrite (Hf x (or_introl eq_refl)).
    rewrite IH; [reflexivity | intros c Hc; apply Hf; right; exact Hc].
Qed.

(** A line whose first field is [str(t)] for a float [t], as every
    writer of the source makes it, is malformed: [int()] rejects the
    field. *)
Lemma written_line_malformed (t : float) (r : list ascii) :
  malformed (chars (float_repr t) ++ ","%char :: r)%list = true.
Proof.
  pose proof (float_repr_chars t) as Hal.
  destruct (float_repr_mark t) as [m [Hm _]].
  unfold malformed, strip.
  destruct (chars (float_repr t)) as [|f0 F] eqn:EF; [contradiction|].
  assert (H0 : is_space f0 = false).
  { apply (alphabet_plain f0). apply Hal. left. reflexivity. }
  simpl app. simpl lstrip. rewrite H0.
  change (f0 :: (F ++ ","%char :: r)%list) with ((f0 :: F) ++ ","%char :: r)%list.
  rewrite (rstrip_app_nonspace (f0 :: F) r ","%char eq_refl).
  rewrite split_prefix.
  2:{ intros c Hc. apply (alphabet_plain c). apply Hal. exact Hc. }
  rewrite <- EF.
  destruct (split "," (rstrip r)) as [|a [|b [|x l]]]; try reflexivity.
  rewrite float_repr_not_int. reflexivity.
Qed.

Lemma un_plain (x : ascii) (r : list ascii) :
  Ascii.eqb x "013" = false -> universal_newlines (x :: r) = x :: universal_newlines r.
Proof. intros H. simpl. rewrite H. reflexivity. Qed.

Lemma un_cr_lf (r : list ascii) :
  universal_newlines ("013"%char :: "010"%char :: r) = "010"%char :: universal_newlines r.
Proof. reflexivity. Qed.

Lemma un_cr_other (y : ascii) (r : list ascii) :
  Ascii.eqb y "010" = false ->
  universal_newlines ("013"%char :: y :: r) = "010"%char :: universal_newlines (y :: r).
Proof.
  intros H. cbn [universal_newlines]. cbn [Ascii.eqb Bool.eqb]. rewrite H. reflexivity.
Qed.

Lemma un_app_plain (a b : list ascii) :
  (forall c, In c a -> Ascii.eqb c "013" = false) ->
  universal_newlines (a ++ b) = (a ++ universal_newlines b)%list.
Proof.
  induction a as [|x a IH]; intros Ha; simpl; [reflexivity|].
  rewrite (Ha x (or_introl eq_refl)).
  rewrite IH; [reflexivity | intros c Hc; apply Ha; right; exact Hc].
Qed.

(** The translation of newlines starts afresh after a line feed. *)
Lemma un_app_lf (n : nat) :
  forall p b : list ascii,
    (List.length p <= n)%nat ->
    exists q, universal_newlines (p ++ ["010"%char]) = (q ++ ["010"%char])%list
              /\ universal_newlines (p ++ "010"%char :: b)
                 = (q ++ "010"%char :: universal_newlines b)%list.
Proof.
  induction n as [|n IH]; intros p b Hlen.
  - destruct p; [|simpl in Hlen; lia]. exists []. split; reflexivity.
  - destruct p as [|x p].
    + exists []. split; reflexivity.
    + simpl in Hlen.
      destruct (Ascii.eqb x "013") eqn:Ex.
      * apply Ascii.eqb_eq in Ex. subst x.
        destruct p as [|y p].
        -- exists []. split; reflexivity.
        -- destruct (Ascii.eqb y "010") eqn:Ey.
           ++ apply Ascii.eqb_eq in Ey. subst y.
              destruct (IH p b) as [q [H1 H2]]; [simpl in Hlen; lia|].
              exists ("010"%char :: q). simpl app. rewrite !un_cr_lf, H1, H2.
              split; reflexivity.
           ++ destruct (IH (y :: p) b) as [q [H1 H2]]; [lia|].
              exists ("010"%char :: q). simpl app in *.
              rewrite !(un_cr_other y _ Ey), H1, H2.
              split; reflexivity.
      * destruct (IH p b) as [q [H1 H2]]; [lia|].
        exists (x :: q). simpl app. rewrite !(un_plain x _ Ex), H1, H2.
        split; reflexivity.
Qed.

Lemma lines_from_app_lf (x y cur : list ascii) :
  lines_from cur (x ++ "010"%char :: y)
  = (lines_from cur (x ++ ["010"%char]) ++ lines_from [] y)%list.
Proof.
  revert cur. induction x as [|a x IH]; intros cur; simpl.
  - reflexivity.
  - destruct (Ascii.eqb a "010"); rewrite IH; reflexivity.
Qed.

Lemma lines_from_plain (a y cur : list ascii) :
  (forall c, In c a -> Ascii.eqb c "010" = false) ->
  lines_from cur (a ++ y) = lines_from (rev a ++ cur) y.
Proof.
  revert cur. induction a as [|x a IH]; intros cur Ha; simpl; [reflexivity|].
  rewrite (Ha x (or_introl eq_refl)).
  rewrite IH; [|intros c Hc; apply Ha; right; exact Hc].
  rewrite <- app_assoc. reflexivity.
Qed.

Lemma lines_from_head (y cur : list ascii) :
  cur <> [] -> exists y1 rest, lines_from cur y = (rev cur ++ y1)%list :: rest.
Proof.
  revert cur. induction y as [|c y IH]; intros cur Hcur; simpl.
  - destruct cur; [contradiction|]. exists [], []. rewrite app_nil_r. reflexivity.
  - destruct (Ascii.eqb c "010").
    + exists [c], (lines_from [] y). reflexivity.
    + destruct (IH (c :: cur)) as [y1 [rest H]]; [discriminate|].
      exists (c :: y1), rest. rewrite H. simpl. rewrite <- app_assoc. reflexivity.
Qed.

(** After any text that ends a line, what starts with [str(t)] and a
    comma is, up to the end of its line, a line of the file. *)
Lemma entry_line_in_file (before rest : string) (t : float) :
  exists tail,
    In (chars (float_repr t) ++ ","%char :: tail)%list
       (file_lines (before ++ nl ++ float_repr t ++ "," ++ rest)).
Proof.
  assert (Hplain : forall c, In c (chars (float_repr t)) ->
                     Ascii.eqb c "010" = false /\ Ascii.eqb c "013" = false).
  { intros c Hc. apply (alphabet_plain c). apply (float_repr_chars t). exact Hc. }
  unfold file_lines. repeat rewrite chars_app.
  change (chars nl) with ["010"%char]. change (chars ",") with [","%char].
  simpl app.
  destruct (un_app_lf (List.length (chars before)) (chars before)
              (chars (float_repr t) ++ ","%char :: chars rest)%list (le_n _)) as [q [_ H2]].
  rewrite H2. rewrite lines_from_app_lf.
  rewrite (un_app_plain (chars (float_repr t))) by (intros c Hc; apply (Hplain c Hc)).
  rewrite (un_plain ","%char _ eq_refl).
  rewrite (lines_from_plain (chars (float_repr t))) by (intros c Hc; apply (Hplain c Hc)).
  rewrite app_nil_r.
  destruct (lines_from_head (universal_newlines (chars rest))
              (","%char :: rev (chars (float_repr t)))) as [y1 [ls H]]; [discriminate|].
  change (lines_from (rev (chars (float_repr t)))
            (","%char :: universal_newlines (chars rest)))
    with (lines_from (","%char :: rev (chars (float_repr t)))
            (universal_newlines (chars rest))).
  rewrite H.
  exists y1. apply in_or_app. right. left.
  simpl. rewrite rev_involutive. rewrite <- app_assoc. reflexivity.
Qed.

(** So a log in which a line starts with the text of a float cannot be
    read. *)
Lemma unreadable_after_entry (before rest : string) (t : float) (calls : list call) :
  exists msg,
    readAll (World (before ++ nl ++ float_repr t ++ "," ++ rest) calls)
    = (Raise (Exn ValueError msg),
       World (before ++ nl ++ float_repr t ++ "," ++ rest) calls).
Proof.
  destruct (entry_line_in_file before rest t) as [tail Hin].
  apply (malformed_line_raises
           (World (before ++ nl ++ float_repr t ++ "," ++ rest) calls) _ Hin
           (written_line_malformed t tail)).
Qed.

(** ** The signal *)

Lemma evaluate_short (data : list entry) :
  (List.length data < 10)%nat -> RebalanceSignal.evaluate data = no_action.
Proof.
  intros H. unfold RebalanceSignal.evaluate, RebalanceSignal.window_size.
  destruct (10 <=? Z.of_nat (List.length data)) eqn:E; [|reflexivity].
  apply Z.leb_le in E. lia.
Qed.

(** C3. When the log parses to fewer than 10 entries, the signal is all
    false: [GET /rebalance-insights] answers
    [{buy: false, sell: false, rebalance: false}] with status 200. *)
Theorem insights_short_log (w : world) (data : list entry) :
  parse_lines (file_lines (log_file w)) = Ok data ->
  (List.length data < 10)%nat ->
  RebalanceSignal.evaluate data = no_action
  /\ get_rebalance_insights w
     = (Ok (VTuple [jsonify [("buy", VBool false); ("sell", VBool false);
                             ("rebalance", VBool false)]; VInt 200]), w).
Proof.
  intros Hparse Hlen. split.
  - apply evaluate_short; assumption.
  - unfold get_rebalance_insights, bind, readAll. rewrite Hparse.
    unfold ret. rewrite (evaluate_short data Hlen). reflexivity.
Qed.

Lemma insights_short_log_witness :
  RebalanceSignal.evaluate [(1, 100%float, 100%float); (2, 200%float, 10%float)] = no_action
  /\ get_rebalance_insights (World ("1,100,100" ++ nl ++ "2,200,10" ++ nl) [])
     = (Ok (VTuple [jsonify [("buy", VBool false); ("sell", VBool false);
                             ("rebalance", VBool false)]; VInt 200]),
        World ("1,100,100" ++ nl ++ "2,200,10" ++ nl) []).
Proof.
  apply (insights_short_log (World ("1,100,100" ++ nl ++ "2,200,10" ++ nl) [])
           [(1, 100%float, 100%float); (2, 200%float, 10%float)]).
  - vm_compute. reflexivity.
  - simpl. lia.
Defined.

Lemma evaluate_buy (data : list entry) :
  (10 <= List.length data)%nat ->
  RebalanceSignal.buy_condition data = true ->
  RebalanceSignal.evaluate data
  = {| RebalanceSignal.buy := true; RebalanceSignal.sell := false;
       RebalanceSignal.rebalance := false |}.
Proof.
  intros Hlen Hbuy. unfold RebalanceSignal.evaluate, RebalanceSignal.window_size.
  destruct (10 <=? Z.of_nat (List.length data)) eqn:E.
  - rewrite Hbuy. reflexivity.
  - apply Z.leb_gt in E. lia.
Qed.

(** C4. The rules are a priority chain. For a log that parses to at
    least 10 entries whose last entry meets the buy condition
    ([curA > avgA * 1.1]) and the rebalance condition
    ([curA < avgA * 0.9 or curB < avgB * 0.9]) at once, the signal is
    [buy = true, sell = false, rebalance = false], and so is the answer
    of [GET /rebalance-insights]. *)
Theorem buy_wins_over_rebalance (w : world) (data : list entry) :
  parse_lines (file_lines (log_file w)) = Ok data ->
  (10 <= List.length data)%nat ->
  RebalanceSignal.buy_condition data = true ->
  RebalanceSignal.rebalance_condition data = true ->
  RebalanceSignal.evaluate data
  = {| RebalanceSignal.buy := true; RebalanceSignal.sell := false;
       RebalanceSignal.rebalance := false |}
  /\ get_rebalance_insights w
     = (Ok (VTuple [jsonify [("buy", VBool true); ("sell", VBool false);
                             ("rebalance", VBool false)]; VInt 200]), w).
Proof.
  intros Hparse Hlen Hbuy _. split.
  - apply evaluate_buy; assumption.
  - unfold get_rebalance_insights, bind, readAll. rewrite Hparse.
    unfold ret. rewrite (evaluate_buy data Hlen Hbuy). reflexivity.
Qed.

Lemma buy_wins_over_rebalance_witness :
  RebalanceSignal.evaluate
    (repeat (1, 100%float, 100%float) 9 ++ [(2, 200%float, 10%float)])%list
  = {| RebalanceSignal.buy := true; RebalanceSignal.sell := false;
       RebalanceSignal.rebalance := false |}
  /\ get_rebalance_insights (World ten_lines_high [])
     = (Ok (VTuple [jsonify [("buy", VBool true); ("sell", VBool false);
                             ("rebalance", VBool false)]; VInt 200]),
        World ten_lines_high []).
Proof.
  apply (buy_wins_over_rebalance (World ten_lines_high [])
           (repeat (1, 100%float, 100%float) 9 ++ [(2, 200%float, 10%float)])%list).
  - vm_compute. reflexivity.
  - simpl. lia.
  - vm_compute. reflexivity.
  - vm_compute. reflexivity.
Defined.

(** Without the buy and sell conditions the same last entry gives
    [rebalance = true]: the third rule is live. *)
Example rebalance_rule_fires :
  RebalanceSignal.evaluate
    (repeat (1, 100%float, 100%float) 9 ++ [(2, 100%float, 10%float)])%list
  = {| RebalanceSignal.buy := false; RebalanceSignal.sell := false;
       RebalanceSignal.rebalance := true |}.
Proof. vm_compute. reflexivity. Qed.

(** ** Handlers that catch *)

Lemma truediv_by_tuple (a : value) (l : list value) :
  truediv a (VTuple l) = Raise (unsupported "/" a (VTuple l)).
Proof. destruct a; reflexivity. Qed.

Lemma on_error_answers (what : string) (e : exn) (w : world) :
  on_error what e w
  = (Ok (VTuple [jsonify [("error", VStr (exn_msg e))]; VInt 500]),
     {| log_file := (log_file w ++ (what ++ exn_msg e) ++ nl)%string; trace := trace w |}).
Proof. reflexivity. Qed.

(** A [try] whose body, when it returns, returns a pair, and whose
    handler is [on_error], always returns a pair. *)
Lemma try_on_error_pair (body : M value) (what : string) (w : world) :
  (forall a w', body w = (Ok a, w') -> is_pair a) ->
  exists a w', try_except body (on_error what) w = (Ok a, w') /\ is_pair a.
Proof.
  intros Hbody. unfold try_except.
  destruct (body w) as [[a | e] w'] eqn:E.
  - exists a, w'. split; [reflexivity | apply (Hbody a w' eq_refl)].
  - rewrite on_error_answers. eexists. eexists. split; [reflexivity |].
    eexists. eexists. reflexivity.
Qed.

Section Prices.

Variable extern : list call -> call -> outcome value.
Variable clock : list call -> float.
Variable config : value.

Lemma get_pol_price_pair (w : world) :
  exists a w', get_pol_price extern config w = (Ok a, w') /\ is_pair a.
Proof.
  unfold get_pol_price. apply try_on_error_pair. intros a w' H.
  apply bind_ok_inv in H. destruct H as [price [w1 [_ H]]].
  inversion H. eexists. eexists. reflexivity.
Qed.

Lemma get_pol_price_first_pair (w : world) :
  exists a w', get_pol_price_first extern clock config w = (Ok a, w') /\ is_pair a.
Proof.
  unfold get_pol_price_first. apply try_on_error_pair. intros a w' H.
  repeat (apply bind_ok_inv in H; destruct H as [? [? [_ H]]]).
  inversion H. eexists. eexists. reflexivity.
Qed.

End Prices.

Section BuyPol.

Variable extern : list call -> call -> outcome value.
Variable clock : list call -> float.
Variable config wallet_address private_key pol_address : value.

Lemma buy_pol_with_pair (price_of : M value) (data amount : value) (w : world) :
  (forall w0, exists a w', price_of w0 = (Ok a, w') /\ is_pair a) ->
  get data "amount_in_usd" = Ok amount ->
  amount <> VNone ->
  exists w',
    buy_pol_with extern clock config wallet_address private_key pol_address price_of data w
    = (Ok (VTuple [jsonify [("error", VStr (pair_divisor_message amount))]; VInt 500]), w').
Proof.
  intros Hprice Hget Hsome. unfold buy_pol_with.
  unfold bind at 1. unfold lift at 1. rewrite Hget.
  assert (Hn : is_none amount = false) by (destruct amount; try reflexivity; contradiction).
  rewrite Hn.
  destruct (Hprice w) as [pair [w1 [Hp [body [status ->]]]]].
  erewrite try_raise.
  2:{ unfold bind at 1. rewrite Hp. unfold bind at 1. unfold lift at 1.
      rewrite truediv_by_tuple. reflexivity. }
  rewrite on_error_answers. eexists. reflexivity.
Qed.

(** C2. For every payload of [POST /buy-pol] whose [amount_in_usd] is
    present (not [None], the test of line 126), the success branch is out
    of reach: [get_pol_price()] returns a pair (response, status), so
    [amount_in_usd / pol_price] raises [TypeError] and the handler
    answers the 500 error body, never a transaction hash. This holds for
    the definition of [get_pol_price] in force (lines 439-462) and for
    the one it replaces (lines 187-223). *)
Theorem buy_pol_always_fails (data amount : value) (w : world) :
  get data "amount_in_usd" = Ok amount ->
  amount <> VNone ->
  (exists w',
     buy_pol extern clock config wallet_address private_key pol_address data w
     = (Ok (VTuple [jsonify [("error", VStr (pair_divisor_message amount))]; VInt 500]), w'))
  /\ (exists w',
     buy_pol_with extern clock config wallet_address private_key pol_address
       (get_pol_price_first extern clock config) data w
     = (Ok (VTuple [jsonify [("error", VStr (pair_divisor_message amount))]; VInt 500]), w')).
Proof.
  intros Hget Hsome. split.
  - unfold buy_pol. apply buy_pol_with_pair; try assumption.
    intros w0. apply get_pol_price_pair.
  - apply buy_pol_with_pair; try assumption.
    intros w0. apply get_pol_price_first_pair.
Qed.

End BuyPol.

Lemma buy_pol_always_fails_witness :
  (exists w',
     buy_pol sample_chain sample_clock sample_config sample_wallet sample_key sample_pol
       (VDict [("amount_in_usd", VInt 5)]) empty_world
     = (Ok (VTuple [jsonify [("error",
              VStr "unsupported operand type(s) for /: 'int' and 'tuple'")]; VInt 500]), w'))
  /\ (exists w',
     buy_pol_with sample_chain sample_clock sample_config sample_wallet sample_key sample_pol
       (get_pol_price_first sample_chain sample_clock sample_config)
       (VDict [("amount_in_usd", VInt 5)]) empty_world
     = (Ok (VTuple [jsonify [("error",
              VStr "unsupported operand type(s) for /: 'int' and 'tuple'")]; VInt 500]), w')).
Proof.
  apply (buy_pol_always_fails sample_chain sample_clock sample_config sample_wallet
           sample_key sample_pol (VDict [("amount_in_usd", VInt 5)]) (VInt 5) empty_world).
  - reflexivity.
  - discriminate.
Defined.

(** What the sample run of [POST /buy-pol] leaves: the price feed was
    read, the error was logged, nothing was sent. *)
Example buy_pol_sample_run :
  buy_pol sample_chain sample_clock sample_config sample_wallet sample_key sample_pol
    (VDict [("amount_in_usd", VInt 5)]) empty_world
  = (Ok (VTuple [jsonify [("error",
           VStr "unsupported operand type(s) for /: 'int' and 'tuple'")]; VInt 500]),
     World ("Error buying POL: unsupported operand type(s) for /: 'int' and 'tuple'" ++ nl)
       [Call "json.load(open)" [VStr "feed.json"];
        Call "w3.eth.contract" [VStr "0xF"; VStr "object"];
        Call "functions.latestAnswer.call" [VStr "object"]]).
Proof. vm_compute. reflexivity. Qed.


(** ** [POST /auto-rebalance] *)

Section AutoRebalance.

Variable extern : list call -> call -> outcome value.
Variable clock : list call -> float.
Variable config wallet_address : value.

(** Line 352 is never passed: the handler raises there, or before it
    when the log does not parse, and has changed nothing. *)
Lemma auto_rebalance_stops (data : value) (w : world) :
  auto_rebalance extern clock config wallet_address data w = (Raise no_json, w)
  \/ exists msg,
       auto_rebalance extern clock config wallet_address data w
       = (Raise (Exn ValueError msg), w)
       /\ existsb malformed (file_lines (log_file w)) = true.
Proof.
  unfold auto_rebalance, get_rebalance_insights.
  destruct (existsb malformed (file_lines (log_file w))) eqn:E.
  - right. destruct (parse_lines_malformed _ E) as [msg Hmsg].
    exists msg. split; [|reflexivity].
    unfold bind, readAll. rewrite Hmsg. reflexivity.
  - left. destruct (parse_lines_wellformed _ E) as [entries [Hok _]].
    unfold bind, readAll. rewrite Hok. reflexivity.
Qed.

(** C1 (defect of the code). [POST /auto-rebalance] never returns: for
    every payload and every log it ends in an exception that no [except]
    catches ([AttributeError] at line 352, since [get_rebalance_insights()]
    returns a tuple; [ValueError] before it when the log does not parse)
    and leaves the world as it was. So no transaction is ever submitted,
    and no no-op success is ever answered either. *)
Theorem auto_rebalance_never_answers (data : value) (w : world) :
  exists e, auto_rebalance extern clock config wallet_address data w = (Raise e, w).
Proof.
  destruct (auto_rebalance_stops data w) as [H | [msg [H _]]]; eexists; exact H.
Qed.

(** Past line 352, with a signal that does not recommend a rebalance, the
    function reaches its end with no [return]: it returns [None], not a
    response, and has done nothing. *)
Lemma auto_rebalance_after_no_signal (insights data recommended : value) (w : world) :
  get insights "rebalance" = Ok recommended ->
  truthy recommended = false ->
  auto_rebalance_after extern clock config wallet_address insights data w = (Ok VNone, w).
Proof.
  intros Hget Hr. unfold auto_rebalance_after.
  unfold bind at 1. unfold lift at 1. rewrite Hget, Hr. reflexivity.
Qed.

End AutoRebalance.

(** ** Validation *)

Section Validation.

Variable extern : list call -> call -> outcome value.
Variable clock : list call -> float.
Variable config wallet_address private_key pol_address : value.

Lemma send_transaction_rejects (data recipient amount : value) (w : world) :
  get data "recipient_address" = Ok recipient ->
  get data "amount_in_pol" = Ok amount ->
  is_none recipient || is_none amount = true ->
  send_transaction extern clock data w = (Ok missing_parameters, w).
Proof.
  intros H1 H2 Hn. unfold send_transaction.
  run_get H1. run_get H2. rewrite Hn. reflexivity.
Qed.

Lemma buy_pol_rejects (data : value) (w : world) :
  get data "amount_in_usd" = Ok VNone ->
  buy_pol extern clock config wallet_address private_key pol_address data w
  = (Ok missing_parameters, w).
Proof.
  intros H. unfold buy_pol, buy_pol_with. run_get H. reflexivity.
Qed.

Lemma rebalance_rejects (data token_a token_b amount_a amount_b : value) (w : world) :
  get data "token_a" = Ok token_a ->
  get data "token_b" = Ok token_b ->
  get data "amount_a" = Ok amount_a ->
  get data "amount_b" = Ok amount_b ->
  all [token_a; token_b; amount_a; amount_b] = false ->
  rebalance extern clock config wallet_address data w = (Ok missing_parameters, w).
Proof.
  intros Ha Hb Hc Hd Hall. unfold rebalance.
  run_get Ha. run_get Hb. run_get Hc. run_get Hd. rewrite Hall. reflexivity.
Qed.

Lemma auto_rebalance_after_rejects
      (insights recommended data token_a token_b amount_a amount_b : value) (w : world) :
  get insights "rebalance" = Ok recommended ->
  truthy recommended = true ->
  get data "token_a" = Ok token_a ->
  get data "token_b" = Ok token_b ->
  get data "amount_a" = Ok amount_a ->
  get data "amount_b" = Ok amount_b ->
  all [token_a; token_b; amount_a; amount_b] = false ->
  auto_rebalance_after extern clock config wallet_address insights data w
  = (Ok missing_parameters, w).
Proof.
  intros Hi Hr Ha Hb Hc Hd Hall. unfold auto_rebalance_after.
  run_get Hi. rewrite Hr.
  run_get Ha. run_get Hb. run_get Hc. run_get Hd. rewrite Hall. reflexivity.
Qed.

(** The four fields of a JSON object, one of which tests false. *)
Lemma four_fields (kvs : list (string * value)) (f : string) (v : value) :
  In f ["token_a"; "token_b"; "amount_a"; "amount_b"] ->
  get (VDict kvs) f = Ok v ->
  truthy v = false ->
  exists token_a token_b amount_a amount_b,
    get (VDict kvs) "token_a" = Ok token_a
    /\ get (VDict kvs) "token_b" = Ok token_b
    /\ get (VDict kvs) "amount_a" = Ok amount_a
    /\ get (VDict kvs) "amount_b" = Ok amount_b
    /\ all [token_a; token_b; amount_a; amount_b] = false.
Proof.
  intros Hin Hget Hv.
  destruct (get_dict_total kvs "token_a") as [ta Ha].
  destruct (get_dict_total kvs "token_b") as [tb Hb].
  destruct (get_dict_total kvs "amount_a") as [aa Hc].
  destruct (get_dict_total kvs "amount_b") as [ab Hd].
  exists ta, tb, aa, ab. repeat (split; [assumption|]).
  apply (all_false_of_falsy _ v); [|exact Hv].
  simpl in Hin.
  destruct Hin as [<- | [<- | [<- | [<- | []]]]];
    [ replace v with ta by congruence
    | replace v with tb by congruence
    | replace v with aa by congruence
    | replace v with ab by congruence ]; simpl; auto.
Qed.

End Validation.

Section Claims.

Variable extern : list call -> call -> outcome value.
Variable clock : list call -> float.
Variable config wallet_address private_key pol_address : value.

(** C5 (amended). A mutating endpoint given a payload that lacks a
    required field makes no outside call and changes nothing (no
    transaction, nothing appended to the log); [POST /send],
    [POST /buy-pol] and [POST /rebalance] answer the 400 error. *)
Theorem missing_field_no_effect (ep : endpoint) (data : value) (f : string) (w : world) :
  In f (required ep) ->
  lacks data f ->
  snd (handle extern clock config wallet_address private_key pol_address ep data w) = w
  /\ (ep <> AutoRebalance ->
      fst (handle extern clock config wallet_address private_key pol_address ep data w)
      = Ok missing_parameters).
Proof.
  intros Hin Hlacks.
  assert (Hnone : get data f = Ok VNone) by (apply get_lacks; exact Hlacks).
  destruct Hlacks as [kvs [-> _]].
  destruct ep; simpl handle.
  - destruct (get_dict_total kvs "recipient_address") as [r Hr].
    destruct (get_dict_total kvs "amount_in_pol") as [a Ha].
    rewrite (send_transaction_rejects extern clock (VDict kvs) r a w Hr Ha).
    + split; reflexivity.
    + simpl in Hin. destruct Hin as [<- | [<- | []]].
      * replace r with VNone by congruence. reflexivity.
      * replace a with VNone by congruence. apply orb_true_r.
  - simpl in Hin. destruct Hin as [<- | []].
    rewrite buy_pol_rejects by exact Hnone. split; reflexivity.
  - destruct (four_fields kvs f VNone Hin Hnone eq_refl)
      as [ta [tb [aa [ab [Ha [Hb [Hc [Hd Hall]]]]]]]].
    rewrite (rebalance_rejects extern clock config wallet_address
               (VDict kvs) ta tb aa ab w Ha Hb Hc Hd Hall).
    split; reflexivity.
  - split; [|congruence].
    destruct (auto_rebalance_stops extern clock config wallet_address (VDict kvs) w)
      as [H | [msg [H _]]]; rewrite H; reflexivity.
Qed.

(** C10 (amended). [POST /rebalance] tests its fields for truth: a
    payload in which a required field is present with a value that tests
    false ([0], [''], ...) gets the 400 error 'Missing required
    parameters' and nothing is done, exactly as a payload in which the
    field is absent. The test at lines 364-365 of [auto_rebalance] does
    the same for the code that follows line 352, once the insights
    recommend a rebalance. *)
Theorem falsy_field_rejected (data absent : value) (f : string) (w : world) :
  In f (required Rebalance) ->
  falsy_at data f ->
  lacks absent f ->
  rebalance extern clock config wallet_address data w = (Ok missing_parameters, w)
  /\ rebalance extern clock config wallet_address absent w = (Ok missing_parameters, w)
  /\ (forall insights recommended : value,
        get insights "rebalance" = Ok recommended ->
        truthy recommended = true ->
        auto_rebalance_after extern clock config wallet_address insights data w
        = (Ok missing_parameters, w)
        /\ auto_rebalance_after extern clock config wallet_address insights absent w
           = (Ok missing_parameters, w)).
Proof.
  intros Hin Hfalsy Hlacks.
  destruct (get_falsy data f Hfalsy) as [v [Hv Hf]].
  destruct Hfalsy as [kvs [v' [-> _]]].
  assert (Hnone : get absent f = Ok VNone) by (apply get_lacks; exact Hlacks).
  destruct Hlacks as [kvs' [-> _]].
  destruct (four_fields kvs f v Hin Hv Hf)
    as [ta [tb [aa [ab [Ha [Hb [Hc [Hd Hall]]]]]]]].
  destruct (four_fields kvs' f VNone Hin Hnone eq_refl)
    as [ta' [tb' [aa' [ab' [Ha' [Hb' [Hc' [Hd' Hall']]]]]]]].
  split; [|split].
  - apply (rebalance_rejects extern clock config wallet_address _ ta tb aa ab); assumption.
  - apply (rebalance_rejects extern clock config wallet_address _ ta' tb' aa' ab');
      assumption.
  - intros insights recommended Hi Hr. split.
    + apply (auto_rebalance_after_rejects extern clock config wallet_address
               insights recommended _ ta tb aa ab); assumption.
    + apply (auto_rebalance_after_rejects extern clock config wallet_address
               insights recommended _ ta' tb' aa' ab'); assumption.
Qed.

End Claims.

Lemma missing_field_no_effect_witness :
  snd (handle sample_chain sample_clock sample_config sample_wallet sample_key sample_pol
         Rebalance (VDict [("token_a", VStr "0xA"); ("amount_a", VInt 2)]) empty_world)
  = empty_world
  /\ (Rebalance <> AutoRebalance ->
      fst (handle sample_chain sample_clock sample_config sample_wallet sample_key sample_pol
             Rebalance (VDict [("token_a", VStr "0xA"); ("amount_a", VInt 2)]) empty_world)
      = Ok missing_parameters).
Proof.
  apply (missing_field_no_effect sample_chain sample_clock sample_config sample_wallet
           sample_key sample_pol Rebalance
           (VDict [("token_a", VStr "0xA"); ("amount_a", VInt 2)]) "token_b" empty_world).
  - simpl. right. left. reflexivity.
  - exists [("token_a", VStr "0xA"); ("amount_a", VInt 2)]. split; reflexivity.
Defined.

(** C5, as stated, fails for [POST /auto-rebalance]: with the empty
    payload, which lacks every field, and the empty log, the handler
    raises [AttributeError] at line 352; it does not answer 400. *)
Lemma auto_rebalance_missing_field_raises :
  lacks (VDict []) "token_a"
  /\ auto_rebalance sample_chain sample_clock sample_config sample_wallet
       (VDict []) empty_world
     = (Raise no_json, empty_world)
  /\ fst (auto_rebalance sample_chain sample_clock sample_config sample_wallet
            (VDict []) empty_world)
     <> Ok missing_parameters.
Proof.
  split; [|split].
  - exists []. split; reflexivity.
  - vm_compute. reflexivity.
  - vm_compute. discriminate.
Qed.

Lemma falsy_field_rejected_witness :
  rebalance sample_chain sample_clock sample_config sample_wallet
    zero_amount_payload empty_world = (Ok missing_parameters, empty_world)
  /\ rebalance sample_chain sample_clock sample_config sample_wallet
       (VDict [("token_a", VStr "0xA")]) empty_world = (Ok missing_parameters, empty_world)
  /\ (forall insights recommended : value,
        get insights "rebalance" = Ok recommended ->
        truthy recommended = true ->
        auto_rebalance_after sample_chain sample_clock sample_config sample_wallet
          insights zero_amount_payload empty_world
        = (Ok missing_parameters, empty_world)
        /\ auto_rebalance_after sample_chain sample_clock sample_config sample_wallet
             insights (VDict [("token_a", VStr "0xA")]) empty_world
           = (Ok missing_parameters, empty_world)).
Proof.
  apply (falsy_field_rejected sample_chain sample_clock sample_config sample_wallet
           zero_amount_payload (VDict [("token_a", VStr "0xA")]) "amount_a" empty_world).
  - simpl. right. right. left. reflexivity.
  - exists [("token_a", VStr "0xA"); ("token_b", VStr "0xB");
            ("amount_a", VInt 0); ("amount_b", VInt 1)], (VInt 0).
    repeat split.
  - exists [("token_a", VStr "0xA")]. split; reflexivity.
Defined.

(** C10, as stated, fails for [POST /auto-rebalance]: a payload with
    every field present and [amount_a = 0] is not answered 400; the
    handler raises [AttributeError] at line 352, whether the log
    recommends a rebalance ([ten_lines]) or is empty. *)
Lemma auto_rebalance_falsy_field_raises :
  falsy_at zero_amount_payload "amount_a"
  /\ auto_rebalance sample_chain sample_clock sample_config sample_wallet
       zero_amount_payload (World ten_lines [])
     = (Raise no_json, World ten_lines [])
  /\ auto_rebalance sample_chain sample_clock sample_config sample_wallet
       zero_amount_payload empty_world
     = (Raise no_json, empty_world)
  /\ fst (auto_rebalance sample_chain sample_clock sample_config sample_wallet
            zero_amount_payload empty_world)
     <> Ok missing_parameters.
Proof.
  split; [|split; [|split]].
  - exists [("token_a", VStr "0xA"); ("token_b", VStr "0xB");
            ("amount_a", VInt 0); ("amount_b", VInt 1)], (VInt 0).
    repeat split.
  - vm_compute. reflexivity.
  - vm_compute. reflexivity.
  - vm_compute. discriminate.
Qed.

(** ** Handlers that answer whatever happens *)

Lemma missing_parameters_pair : is_pair missing_parameters.
Proof. eexists. eexists. reflexivity. Qed.

Section Answers.

Variable extern : list call -> call -> outcome value.
Variable clock : list call -> float.
Variable config wallet_address private_key pol_address : value.

(** [POST /send] with a JSON object always answers a pair: every
    failure past the validation is caught (lines 113-118). *)
Lemma send_transaction_answers (kvs : list (string * value)) (w : world) :
  exists a w', send_transaction extern clock (VDict kvs) w = (Ok a, w') /\ is_pair a.
Proof.
  destruct (get_dict_total kvs "recipient_address") as [r Hr].
  destruct (get_dict_total kvs "amount_in_pol") as [a Ha].
  unfold send_transaction. run_get Hr. run_get Ha.
  destruct (is_none r || is_none a).
  - eexists. eexists. split; [reflexivity | apply missing_parameters_pair].
  - apply try_on_error_pair. intros v w' H.
    repeat (apply bind_ok_inv in H; destruct H as [? [? [_ H]]]).
    inversion H. eexists. eexists. reflexivity.
Qed.

(** So does [POST /rebalance] (lines 285-290). *)
Lemma rebalance_answers (kvs : list (string * value)) (w : world) :
  exists a w', rebalance extern clock config wallet_address (VDict kvs) w = (Ok a, w')
               /\ is_pair a.
Proof.
  destruct (get_dict_total kvs "token_a") as [ta Ha].
  destruct (get_dict_total kvs "token_b") as [tb Hb].
  destruct (get_dict_total kvs "amount_a") as [aa Hc].
  destruct (get_dict_total kvs "amount_b") as [ab Hd].
  unfold rebalance. run_get Ha. run_get Hb. run_get Hc. run_get Hd.
  destruct (negb (all [ta; tb; aa; ab])).
  - eexists. eexists. split; [reflexivity | apply missing_parameters_pair].
  - apply try_on_error_pair. intros v w' H.
    repeat (apply bind_ok_inv in H; destruct H as [? [? [_ H]]]).
    inversion H. eexists. eexists. reflexivity.
Qed.

(** And [GET /log] (lines 432-437). *)
Lemma get_log_answers (w : world) :
  exists a w', get_log w = (Ok a, w') /\ is_pair a.
Proof.
  unfold get_log. apply try_on_error_pair. intros v w' H.
  repeat (apply bind_ok_inv in H; destruct H as [? [? [_ H]]]).
  inversion H. eexists. eexists. reflexivity.
Qed.

End Answers.

(** ** The runs that succeed *)

Section Success.

Variable extern : list call -> call -> outcome value.
Variable clock : list call -> float.
Variable config wallet_address private_key pol_address : value.

(** [POST /send] that answers a hash has appended the logger's message
    and the line [time,amount,recipient] (lines 105-109). *)
Lemma send_transaction_success (data h : value) (w w' : world) :
  send_transaction extern clock data w
  = (Ok (VTuple [jsonify [("transaction_hash", h)]; VInt 200]), w') ->
  exists (message : string) (t : float) (amount recipient : value),
    log_file w'
    = (log_file w ++ (message ++ nl)
         ++ (float_repr t ++ "," ++ str amount ++ "," ++ str recipient ++ nl))%string.
Proof.
  intros H. unfold send_transaction in H.
  do 2 (peel_with @bind_ok_inv append_log_inv @kept H).
  destruct (is_none _ || is_none _); [inversion H|].
  apply try_ok_inv in H. destruct H as [H | [? [? [_ H]]]]; [|inversion H].
  do 7 (peel_with @bind_ok_inv append_log_inv @kept H). inversion H; subst.
  eexists. eexists. eexists. eexists. chain_logs.
  rewrite append_assoc. reflexivity.
Qed.

(** [POST /rebalance] that answers a hash has appended the logger's
    message and the line [time,a,b] (lines 277-281). *)
Lemma rebalance_success (data h : value) (w w' : world) :
  rebalance extern clock config wallet_address data w
  = (Ok (VTuple [jsonify [("transaction_hash", h)]; VInt 200]), w') ->
  exists (message : string) (t : float) (a b : Z),
    log_file w'
    = (log_file w ++ (message ++ nl)
         ++ (float_repr t ++ "," ++ dec a ++ "," ++ dec b ++ nl))%string.
Proof.
  intros H. unfold rebalance in H.
  do 4 (peel_with @bind_ok_inv append_log_inv @kept H).
  destruct (negb (all _)); [inversion H|].
  apply try_ok_inv in H. destruct H as [H | [? [? [_ H]]]]; [|inversion H].
  do 16 (peel_with @bind_ok_inv append_log_inv @kept H). inversion H; subst.
  eexists. eexists. eexists. eexists. chain_logs.
  rewrite append_assoc. reflexivity.
Qed.

(** Lines 355-414 of [auto_rebalance], when they answer a hash, have
    appended the logger's message and nothing else: there is no
    [f.write] on this path. *)
Lemma auto_rebalance_after_success (insights data h : value) (w w' : world) :
  auto_rebalance_after extern clock config wallet_address insights data w
  = (Ok (VTuple [jsonify [("transaction_hash", h)]; VInt 200]), w') ->
  exists (a b : Z) (token_a token_b : value),
    log_file w'
    = (log_file w ++ ("Auto-rebalanced " ++ dec a ++ " " ++ str token_a
                        ++ " for " ++ dec b ++ " " ++ str token_b) ++ nl)%string.
Proof.
  intros H. unfold auto_rebalance_after in H.
  peel_with @bind_ok_inv append_log_inv @kept H.
  destruct (truthy _); [|inversion H].
  do 4 (peel_with @bind_ok_inv append_log_inv @kept H).
  destruct (negb (all _)); [inversion H|].
  apply try_ok_inv in H. destruct H as [H | [? [? [_ H]]]]; [|inversion H].
  do 20 (peel_with @bind_ok_inv append_log_inv @kept H). inversion H; subst.
  eexists. eexists. eexists. eexists. chain_logs. reflexivity.
Qed.

(** [POST /buy-pol] never answers a hash. *)
Lemma buy_pol_never_succeeds (data h : value) (w w' : world) :
  buy_pol extern clock config wallet_address private_key pol_address data w
  <> (Ok (VTuple [jsonify [("transaction_hash", h)]; VInt 200]), w').
Proof.
  intros H.
  destruct (get data "amount_in_usd") as [amount | e] eqn:G.
  - destruct (is_none amount) eqn:N.
    + destruct amount; try discriminate.
      rewrite (buy_pol_rejects extern clock config wallet_address private_key
                 pol_address data w G) in H.
      inversion H.
    + assert (Hne : amount <> VNone) by (intros ->; discriminate).
      destruct (buy_pol_with_pair extern clock config wallet_address private_key
                  pol_address (get_pol_price extern config) data amount w
                  (get_pol_price_pair extern config) G Hne) as [w1 H1].
      unfold buy_pol in H. rewrite H1 in H. inversion H.
  - unfold buy_pol, buy_pol_with in H.
    unfold bind at 1 in H. unfold lift at 1 in H. rewrite G in H. discriminate.
Qed.

(** C9 (defect of the code). No appended entry reads back. Whenever a
    mutating endpoint answers a transaction hash, the log it leaves makes
    [readAll()] raise [ValueError]: the line it appended starts with
    [str(time.time())], the text of a float, which [int()] rejects
    (line 316). *)
Theorem no_entry_reads_back (ep : endpoint) (data h : value) (w w' : world) :
  handle extern clock config wallet_address private_key pol_address ep data w
  = (Ok (VTuple [jsonify [("transaction_hash", h)]; VInt 200]), w') ->
  exists msg, readAll w' = (Raise (Exn ValueError msg), w').
Proof.
  destruct ep; simpl handle; intros H.
  - destruct (send_transaction_success data h w w' H) as [m [t [a [r Hlog]]]].
    destruct w' as [l tr]. simpl in Hlog. subst l.
    rewrite <- append_assoc. rewrite <- (append_assoc (log_file w) m nl).
    rewrite (append_assoc (log_file w ++ m) nl).
    apply unreadable_after_entry.
  - exfalso. apply (buy_pol_never_succeeds data h w w' H).
  - destruct (rebalance_success data h w w' H) as [m [t [a [b Hlog]]]].
    destruct w' as [l tr]. simpl in Hlog. subst l.
    rewrite <- append_assoc. rewrite <- (append_assoc (log_file w) m nl).
    rewrite (append_assoc (log_file w ++ m) nl).
    apply unreadable_after_entry.
  - exfalso.
    destruct (auto_rebalance_stops extern clock config wallet_address data w)
      as [E | [msg [E _]]]; rewrite E in H; discriminate.
Qed.

End Success.

Lemma no_entry_reads_back_witness :
  exists msg,
    readAll (snd (rebalance sample_chain sample_clock sample_config sample_wallet
                    sample_payload empty_world))
    = (Raise (Exn ValueError msg),
       snd (rebalance sample_chain sample_clock sample_config sample_wallet
              sample_payload empty_world)).
Proof.
  apply (no_entry_reads_back sample_chain sample_clock sample_config sample_wallet
           sample_key sample_pol Rebalance sample_payload (VStr "0xabc") empty_world).
  vm_compute. reflexivity.
Defined.

(** ** Runs of the sample environment *)


(** C7 (defect of the code). [get_rebalance_insights] has no [try]: on
    the log that one successful [POST /send] leaves, [ValueError] leaves
    the handler uncaught, where [POST /send] itself turns the failure of
    an outside call into a 500 body. *)
Example insights_failure_escapes :
  (let w1 := snd (send_transaction sample_chain sample_clock
                    (VDict [("recipient_address", VStr "0xA"); ("amount_in_pol", VInt 1)])
                    empty_world) in
   log_file w1 = ("Sent 1 POL to 0xA" ++ nl ++ "1700000000.5,1,0xA" ++ nl)%string
   /\ get_rebalance_insights w1
      = (Raise (Exn ValueError "not enough values to unpack (expected 3, got 1)"), w1))
  /\ fst (send_transaction (fun _ _ => Raise (Exn (OtherError "ConnectionError") "no route"))
            sample_clock
            (VDict [("recipient_address", VStr "0xA"); ("amount_in_pol", VInt 1)])
            empty_world)
     = Ok (VTuple [jsonify [("error", VStr "no route")]; VInt 500]).
Proof. vm_compute. repeat split. Qed.

(** The same on the sample run: after one successful [POST /rebalance]
    on the empty log, [readAll()] raises [ValueError] at the logger's
    line; the data line alone raises too, since [time.time()] is written
    as a float and read with [int()]. *)
Example appended_entry_does_not_read_back :
  (let w1 := snd (rebalance sample_chain sample_clock sample_config sample_wallet
                    sample_payload empty_world) in
   log_file w1 = ("Rebalanced tokens: 6 of 0xA, 4 of 0xB" ++ nl
                    ++ "1700000000.5,6,4" ++ nl)%string
   /\ readAll w1
      = (Raise (Exn ValueError "not enough values to unpack (expected 3, got 2)"), w1))
  /\ readAll (World ("1700000000.5,6,4" ++ nl) [])
     = (Raise (Exn ValueError "invalid literal for int() with base 10: '1700000000.5'"),
        World ("1700000000.5,6,4" ++ nl) []).
Proof. vm_compute. repeat split. Qed.

(** ** Further properties of the handlers *)

(** ** What the reader accepts, character by character *)

Lemma lower_special (c : ascii) : special_letter (lower c) = true -> numeric_char c = true.
Proof.
  destruct c as [[] [] [] [] [] [] [] []]; vm_compute; intros H; try reflexivity; discriminate.
Qed.

Lemma int_char_numeric (c : ascii) : int_char c = true -> numeric_char c = true.
Proof.
  destruct c as [[] [] [] [] [] [] [] []]; vm_compute; intros H; try reflexivity; discriminate.
Qed.

Lemma digit_like_numeric (c : ascii) : digit_like c = true -> numeric_char c = true.
Proof.
  destruct c as [[] [] [] [] [] [] [] []]; vm_compute; intros H; try reflexivity; discriminate.
Qed.

Lemma digitpart_cover (l rest : list ascii) (ds : list Z) (c : ascii) :
  digitpart l = Some (ds, rest) -> In c l -> digit_like c = true \/ In c rest.
Proof.
  unfold digitpart. destruct l as [|a l]; [discriminate|].
  destruct (digit_of a) eqn:Ea; [|discriminate].
  destruct (digit_tail l) as [ds' rest'] eqn:Et. intros H. inversion H; subst.
  intros [<- | Hin].
  - left. unfold digit_like. rewrite Ea. apply orb_true_r.
  - apply (digit_tail_in (List.length l) l rest ds' c (le_n _) Et Hin).
Qed.

Lemma read_number_cover (l rest : list ascii) (ds fs : list Z) (c : ascii) :
  read_number l = Some (ds, fs, rest) -> In c l -> numeric_char c = true \/ In c rest.
Proof.
  unfold read_number.
  destruct (digitpart l) as [[ds0 r0]|] eqn:E0.
  - intros H Hin.
    destruct (digitpart_cover l r0 ds0 c E0 Hin) as [Hd | Hr];
      [left; apply digit_like_numeric; exact Hd|].
    destruct r0 as [|x r1]; [contradiction|].
    destruct (Ascii.eqb x ".") eqn:Ex.
    + apply Ascii.eqb_eq in Ex. subst x.
      destruct Hr as [<- | Hr]; [left; reflexivity|].
      destruct (digitpart r1) as [[fs1 r2]|] eqn:E1.
      * inversion H; subst.
        destruct (digitpart_cover r1 rest fs c E1 Hr) as [Hd | Hr'];
          [left; apply digit_like_numeric; exact Hd | right; exact Hr'].
      * inversion H; subst. right. exact Hr.
    + inversion H; subst. right. exact Hr.
  - destruct l as [|x r1]; [discriminate|].
    destruct (Ascii.eqb x ".") eqn:Ex; [|discriminate].
    apply Ascii.eqb_eq in Ex. subst x.
    destruct (digitpart r1) as [[fs1 r2]|] eqn:E1; [|discriminate].
    intros H Hin. inversion H; subst.
    destruct Hin as [<- | Hr]; [left; reflexivity|].
    destruct (digitpart_cover r1 rest fs c E1 Hr) as [Hd | Hr'];
      [left; apply digit_like_numeric; exact Hd | right; exact Hr'].
Qed.

Lemma read_exponent_cover (l : list ascii) (ex : Z) (c : ascii) :
  read_exponent l = Some ex -> In c l -> numeric_char c = true.
Proof.
  unfold read_exponent. destruct l as [|x r]; [intros _ []|].
  destruct (Ascii.eqb (lower x) "e") eqn:Ex; [|discriminate].
  destruct (read_sign r) as [neg body] eqn:Es.
  destruct (digitpart body) as [[ds rest]|] eqn:Ed; [|discriminate].
  destruct rest; [|discriminate]. intros _ [<- | Hin].
  - apply lower_special. apply Ascii.eqb_eq in Ex. rewrite Ex. reflexivity.
  - destruct (read_sign_in _ _ _ c Es Hin) as [Hs | Hb].
    + apply int_char_numeric. unfold int_char. rewrite Hs. rewrite orb_true_r. reflexivity.
    + apply digit_like_numeric. apply (digitpart_in body ds c Ed Hb).
Qed.

Lemma special_word (word : string) (body : list ascii) (c : ascii) :
  (forall d, In d (chars word) -> special_letter d = true) ->
  String.eqb (text (map lower body)) word = true ->
  In c body -> numeric_char c = true.
Proof.
  intros Hw He Hin. apply String.eqb_eq in He.
  apply lower_special. apply Hw. rewrite <- He. rewrite chars_text.
  apply in_map. exact Hin.
Qed.

Lemma float_of_str_chars (l : list ascii) (x : float) (c : ascii) :
  float_of_str l = Some x -> In c l -> numeric_char c = true.
Proof.
  unfold float_of_str. destruct (read_sign (strip l)) as [neg body] eqn:Es.
  intros H Hin.
  destruct (strip_in l c Hin) as [Hs | H1]; [unfold numeric_char; rewrite Hs; reflexivity|].
  destruct (read_sign_in _ _ _ c Es H1) as [Hsg | H2];
    [apply int_char_numeric; unfold int_char; rewrite Hsg; rewrite orb_true_r; reflexivity|].
  destruct (String.eqb (text (map lower body)) "inf") eqn:E1.
  { apply (special_word "inf" body c); [|exact E1|exact H2].
    intros d Hd. simpl in Hd. repeat (destruct Hd as [<- | Hd]; [reflexivity|]). contradiction. }
  destruct (String.eqb (text (map lower body)) "infinity") eqn:E2.
  { apply (special_word "infinity" body c); [|exact E2|exact H2].
    intros d Hd. simpl in Hd. repeat (destruct Hd as [<- | Hd]; [reflexivity|]). contradiction. }
  simpl in H.
  destruct (String.eqb (text (map lower body)) "nan") eqn:E3.
  { apply (special_word "nan" body c); [|exact E3|exact H2].
    intros d Hd. simpl in Hd. repeat (destruct Hd as [<- | Hd]; [reflexivity|]). contradiction. }
  destruct (read_number body) as [[[ds fs] rest]|] eqn:En; [|discriminate].
  destruct (read_exponent rest) as [ex|] eqn:Ee; [|discriminate].
  destruct (read_number_cover body rest ds fs c En H2) as [Hn | Hr]; [exact Hn|].
  apply (read_exponent_cover rest ex c Ee Hr).
Qed.

Lemma split_cover (sep : ascii) (l : list ascii) (c : ascii) :
  In c l -> Ascii.eqb c sep = true \/ exists f, In f (split sep l) /\ In c f.
Proof.
  induction l as [|x l IH]; intros Hin; [contradiction|].
  simpl. destruct (Ascii.eqb x sep) eqn:Ex.
  - destruct Hin as [-> | Hin]; [left; exact Ex|].
    destruct (IH Hin) as [Hs | [f [Hf Hc]]]; [left; exact Hs|].
    right. exists f. split; [right; exact Hf | exact Hc].
  - destruct (split sep l) as [|f0 fs] eqn:Esp.
    + destruct Hin as [-> | Hin].
      * right. exists [c]. split; left; reflexivity.
      * destruct (IH Hin) as [Hs | [f [[] _]]]. left; exact Hs.
    + destruct Hin as [-> | Hin].
      * right. exists (c :: f0). split; left; reflexivity.
      * destruct (IH Hin) as [Hs | [f [Hf Hc]]]; [left; exact Hs|].
        right. destruct Hf as [<- | Hf].
        -- exists (x :: f0). split; [left; reflexivity | right; exact Hc].
        -- exists f. split; [right; exact Hf | exact Hc].
Qed.

(** A line with a character that is no part of a number is malformed. *)
Lemma stray_char_malformed (line : list ascii) (c : ascii) :
  In c line -> log_char c = false -> malformed line = true.
Proof.
  intros Hin Hc. unfold log_char in Hc. apply orb_false_iff in Hc. destruct Hc as [Hn Hcomma].
  destruct (malformed line) eqn:Em; [reflexivity|]. exfalso.
  unfold malformed in Em.
  destruct (strip_in line c Hin) as [Hs | H1].
  { unfold numeric_char in Hn. rewrite Hs in Hn. discriminate. }
  destruct (split_cover "," (strip line) c H1) as [Hs | [f [Hf Hcf]]]; [congruence|].
  destruct (split "," (strip line)) as [|t [|a [|b [|x r]]]]; try discriminate.
  destruct (int_of_str t) as [zt|] eqn:Et; [|discriminate].
  destruct (float_of_str a) as [fa|] eqn:Ea; [|discriminate].
  destruct (float_of_str b) as [fb|] eqn:Eb; [|discriminate].
  destruct Hf as [<- | [<- | [<- | []]]].
  - pose proof (int_char_numeric c (int_of_str_chars _ _ c Et Hcf)). congruence.
  - pose proof (float_of_str_chars _ _ c Ea Hcf). congruence.
  - pose proof (float_of_str_chars _ _ c Eb Hcf). congruence.
Qed.

Lemma un_cover (n : nat) :
  forall (l : list ascii) (c : ascii),
    (List.length l <= n)%nat ->
    In c l -> Ascii.eqb c "013" = false -> In c (universal_newlines l).
Proof.
  induction n as [|n IH]; intros l c Hlen Hin Hc.
  - destruct l; [contradiction | simpl in Hlen; lia].
  - destruct l as [|x l]; [contradiction|]. simpl in Hlen.
    destruct (Ascii.eqb x "013") eqn:Ex.
    + apply Ascii.eqb_eq in Ex. subst x.
      destruct Hin as [<- | Hin]; [discriminate|].
      destruct l as [|y l]; [contradiction|].
      destruct (Ascii.eqb y "010") eqn:Ey.
      * apply Ascii.eqb_eq in Ey. subst y. rewrite un_cr_lf.
        destruct Hin as [<- | Hin]; [left; reflexivity|].
        right. apply IH; [simpl in Hlen; lia | exact Hin | exact Hc].
      * rewrite (un_cr_other y l Ey). right.
        apply IH; [lia | exact Hin | exact Hc].
    + rewrite (un_plain x l Ex).
      destruct Hin as [<- | Hin]; [left; reflexivity|].
      right. apply IH; [lia | exact Hin | exact Hc].
Qed.

Lemma lines_cover (l cur : list ascii) (c : ascii) :
  In c l \/ In c cur -> exists line, In line (lines_from cur l) /\ In c line.
Proof.
  revert cur. induction l as [|x l IH]; intros cur H; simpl.
  - destruct H as [[] | H]. destruct cur as [|y cur]; [contradiction|].
    exists (rev (y :: cur)). split; [left; reflexivity | apply in_rev in H; exact H].
  - destruct (Ascii.eqb x "010").
    + destruct H as [[<- | H] | H].
      * exists (rev (x :: cur)). split; [left; reflexivity|].
        apply -> in_rev. left. reflexivity.
      * destruct (IH [] (or_introl H)) as [line [Hl Hc]].
        exists line. split; [right; exact Hl | exact Hc].
      * exists (rev (x :: cur)). split; [left; reflexivity|].
        apply -> in_rev. right. exact H.
    + apply IH. destruct H as [[<- | H] | H].
      * right. left. reflexivity.
      * left. exact H.
      * right. right. exact H.
Qed.

(** A log with a character that is no part of a number, anywhere, cannot
    be read. *)
Lemma stray_char_unreadable (w : world) (c : ascii) :
  In c (chars (log_file w)) -> log_char c = false ->
  exists msg, readAll w = (Raise (Exn ValueError msg), w).
Proof.
  intros Hin Hc.
  assert (Hcr : Ascii.eqb c "013" = false).
  { destruct (Ascii.eqb c "013") eqn:E; [|reflexivity].
    apply Ascii.eqb_eq in E. subst c. discriminate. }
  pose proof (un_cover _ _ c (le_n _) Hin Hcr) as Hun.
  destruct (lines_cover (universal_newlines (chars (log_file w))) [] c (or_introl Hun))
    as [line [Hl Hcl]].
  apply (malformed_line_raises w line Hl (stray_char_malformed line c Hcl Hc)).
Qed.

(** ** What the handlers write *)

Lemma in_chars_app_l (a b : string) (c : ascii) : In c (chars a) -> In c (chars (a ++ b)).
Proof. intros H. rewrite chars_app. apply in_or_app. left. exact H. Qed.

Lemma in_chars_app_r (a b : string) (c : ascii) : In c (chars b) -> In c (chars (a ++ b)).
Proof. intros H. rewrite chars_app. apply in_or_app. right. exact H. Qed.

Lemma stray_app_l (a b : string) : stray a -> stray (a ++ b).
Proof. intros [c [H1 H2]]. exists c. split; [apply in_chars_app_l; exact H1 | exact H2]. Qed.

Lemma stray_app_r (a b : string) : stray b -> stray (a ++ b).
Proof. intros [c [H1 H2]]. exists c. split; [apply in_chars_app_r; exact H1 | exact H2]. Qed.

Lemma on_error_stray (what : string) (e : exn) (w w' : world) (v : value) :
  stray what -> on_error what e w = (Ok v, w') -> stray (log_file w').
Proof.
  intros Hs H. rewrite on_error_answers in H. inversion H; subst. simpl.
  apply stray_app_r. apply stray_app_l. apply stray_app_l. exact Hs.
Qed.

Section Poisoned.
Variable extern : list call -> call -> outcome value.
Variable clock : list call -> float.
Variable config wallet_address private_key pol_address : value.

Lemma send_transaction_strays (data v : value) (w w' : world) :
  send_transaction extern clock data w = (Ok v, w') ->
  v = missing_parameters \/ stray (log_file w').
Proof.
  intros H. unfold send_transaction in H.
  do 2 (peel_with @bind_ok_inv append_log_inv @kept H).
  destruct (is_none _ || is_none _); [left; inversion H; reflexivity|]. right.
  apply try_ok_inv in H. destruct H as [H | [e [wx [_ H]]]].
  - do 7 (peel_with @bind_ok_inv append_log_inv @kept H). inversion H; subst.
    chain_logs. find_stray_with stray_app_l stray_app_r.
  - refine (on_error_stray _ _ _ _ _ _ H). find_stray_with stray_app_l stray_app_r.
Qed.

Lemma rebalance_strays (data v : value) (w w' : world) :
  rebalance extern clock config wallet_address data w = (Ok v, w') ->
  v = missing_parameters \/ stray (log_file w').
Proof.
  intros H. unfold rebalance in H.
  do 4 (peel_with @bind_ok_inv append_log_inv @kept H).
  destruct (negb (all _)); [left; inversion H; reflexivity|]. right.
  apply try_ok_inv in H. destruct H as [H | [e [wx [_ H]]]].
  - do 16 (peel_with @bind_ok_inv append_log_inv @kept H). inversion H; subst.
    chain_logs. find_stray_with stray_app_l stray_app_r.
  - refine (on_error_stray _ _ _ _ _ _ H). find_stray_with stray_app_l stray_app_r.
Qed.

Lemma buy_pol_strays (data v : value) (w w' : world) :
  buy_pol extern clock config wallet_address private_key pol_address data w = (Ok v, w') ->
  v = missing_parameters \/ stray (log_file w').
Proof.
  intros H. unfold buy_pol, buy_pol_with in H.
  peel_with @bind_ok_inv append_log_inv @kept H.
  destruct (is_none _); [left; inversion H; reflexivity|]. right.
  apply try_ok_inv in H. destruct H as [H | [e [wx [_ H]]]].
  - exfalso. apply bind_ok_inv in H. destruct H as [p [wp [Hp H]]].
    apply bind_ok_inv in H. destruct H as [q [wq [Hq _]]].
    destruct (get_pol_price_pair extern config w0) as [p' [wp' [Hp' [body [status ->]]]]].
    rewrite Hp' in Hp. inversion Hp; subst.
    unfold lift in Hq. rewrite truediv_by_tuple in Hq. discriminate.
  - refine (on_error_stray _ _ _ _ _ _ H). find_stray_with stray_app_l stray_app_r.
Qed.

(** X3. The handlers write their messages into the file the reader
    parses. Whenever [POST /send], [POST /buy-pol] or [POST /rebalance]
    answers anything but the 400 of a failed validation (a transaction
    hash or a 500 error), it has written a logger line with letters no
    number has, and from then on [readAll()] raises [ValueError],
    whatever is appended to the file later. *)
Theorem validated_request_poisons_log (ep : endpoint) (data v : value) (w w' : world)
        (later : string) (calls : list call) :
  ep <> AutoRebalance ->
  handle extern clock config wallet_address private_key pol_address ep data w = (Ok v, w') ->
  v <> missing_parameters ->
  exists msg,
    readAll (World (log_file w' ++ later) calls)
    = (Raise (Exn ValueError msg), World (log_file w' ++ later) calls).
Proof.
  intros Hep H Hv.
  assert (Hs : stray (log_file w')).
  { destruct ep; simpl handle in H.
    - destruct (send_transaction_strays data v w w' H); [contradiction | assumption].
    - destruct (buy_pol_strays data v w w' H); [contradiction | assumption].
    - destruct (rebalance_strays data v w w' H); [contradiction | assumption].
    - contradiction. }
  destruct (stray_app_l _ later Hs) as [c [Hin Hc]].
  apply (stray_char_unreadable (World (log_file w' ++ later) calls) c Hin Hc).
Qed.
End Poisoned.

Lemma validated_request_poisons_log_witness :
  exists msg,
    readAll (World (log_file (snd (handle unreachable_chain sample_clock sample_config
                                     sample_wallet sample_key sample_pol Send send_payload
                                     empty_world))
                      ++ ("1,2,3" ++ nl)) [])
    = (Raise (Exn ValueError msg),
       World (log_file (snd (handle unreachable_chain sample_clock sample_config
                               sample_wallet sample_key sample_pol Send send_payload
                               empty_world))
                ++ ("1,2,3" ++ nl)) []).
Proof.
  apply (validated_request_poisons_log unreachable_chain sample_clock sample_config
           sample_wallet sample_key sample_pol Send send_payload
           (VTuple [jsonify [("error", VStr "no route")]; VInt 500]) empty_world).
  - discriminate.
  - vm_compute. reflexivity.
  - discriminate.
Defined.

(** ** Payloads that are no object *)

(** X6. The payload is read with [data.get] before the [try]: a JSON
    payload that is no object (a list, a string, a number, [true],
    [null]) makes [POST /send], [POST /buy-pol] and [POST /rebalance]
    raise [AttributeError] uncaught, with nothing logged and no outside
    call made. *)
Theorem non_object_payload_escapes
        (extern : list call -> call -> outcome value) (clock : list call -> float)
        (config wallet_address private_key pol_address : value)
        (ep : endpoint) (data : value) (w : world) :
  is_object data = false ->
  ep <> AutoRebalance ->
  handle extern clock config wallet_address private_key pol_address ep data w
  = (Raise (no_attribute data "get"), w).
Proof.
  intros Hd Hep. destruct ep; try contradiction; destruct data; try discriminate; reflexivity.
Qed.

Lemma non_object_payload_escapes_witness :
  handle sample_chain sample_clock sample_config sample_wallet sample_key sample_pol
    Send (VList [VInt 1]) empty_world
  = (Raise (no_attribute (VList [VInt 1]) "get"), empty_world).
Proof.
  apply (non_object_payload_escapes sample_chain sample_clock sample_config sample_wallet
           sample_key sample_pol Send (VList [VInt 1]) empty_world).
  - reflexivity.
  - discriminate.
Defined.

(** ** The reader *)


(** X4. Whenever [GET /rebalance-insights] answers, the status is 200,
    the world is unchanged and at most one of the flags [buy], [sell]
    and [rebalance] is true: the [if]/[elif] chain of lines 327-332
    never recommends two actions at once. *)
Theorem insights_flags_exclusive (w w' : world) (v : value) :
  get_rebalance_insights w = (Ok v, w') ->
  w' = w
  /\ exists b s r : bool,
       v = VTuple [jsonify [("buy", VBool b); ("sell", VBool s); ("rebalance", VBool r)];
                   VInt 200]
       /\ b && s = false /\ b && r = false /\ s && r = false.
Proof.
  unfold get_rebalance_insights, bind, readAll.
  destruct (parse_lines (file_lines (log_file w))) as [data | e]; [|discriminate].
  unfold ret. intros H. inversion H; subst. split; [reflexivity|].
  unfold insights_body, RebalanceSignal.evaluate.
  destruct (RebalanceSignal.window_size <=? Z.of_nat (List.length data));
    [destruct (RebalanceSignal.buy_condition data);
     [|destruct (RebalanceSignal.sell_condition data);
       [|destruct (RebalanceSignal.rebalance_condition data)]]|];
    eexists; eexists; eexists; (split; [reflexivity | repeat split]).
Qed.

Lemma insights_flags_exclusive_witness :
  World ten_lines_high [] = World ten_lines_high []
  /\ exists b s r : bool,
       VTuple [jsonify [("buy", VBool true); ("sell", VBool false);
                        ("rebalance", VBool false)]; VInt 200]
       = VTuple [jsonify [("buy", VBool b); ("sell", VBool s); ("rebalance", VBool r)];
                 VInt 200]
       /\ b && s = false /\ b && r = false /\ s && r = false.
Proof.
  apply (insights_flags_exclusive (World ten_lines_high []) (World ten_lines_high [])).
  vm_compute. reflexivity.
Defined.

Lemma last_app_nonempty {A : Type} (l1 l2 : list A) (d : A) :
  l2 <> [] -> last (l1 ++ l2) d = last l2 d.
Proof.
  intros H. induction l1 as [|x l1 IH]; [reflexivity|].
  simpl. destruct (l1 ++ l2)%list eqn:E.
  - apply app_eq_nil in E. destruct E as [_ E]. contradiction.
  - exact IH.
Qed.

(** X5. The signal looks at the last ten entries only: entries older
    than the window of lines 325-326 do not change the decision. *)
Theorem signal_reads_last_ten (older recent : list entry) :
  List.length recent = 10%nat ->
  RebalanceSignal.evaluate (older ++ recent) = RebalanceSignal.evaluate recent.
Proof.
  intros Hlen.
  assert (Hne : recent <> []) by (intros ->; discriminate).
  assert (Hw : RebalanceSignal.window (older ++ recent) = RebalanceSignal.window recent).
  { unfold RebalanceSignal.window, RebalanceSignal.window_size.
    rewrite length_app, Hlen. simpl Z.to_nat.
    replace (List.length older + 10 - Pos.to_nat 10)%nat with (List.length older) by lia.
    replace (10 - Pos.to_nat 10)%nat with 0%nat by lia.
    rewrite skipn_app, skipn_all, Nat.sub_diag. reflexivity. }
  assert (Hc : RebalanceSignal.current (older ++ recent) = RebalanceSignal.current recent).
  { unfold RebalanceSignal.current. apply last_app_nonempty. exact Hne. }
  unfold RebalanceSignal.evaluate, RebalanceSignal.buy_condition,
    RebalanceSignal.sell_condition, RebalanceSignal.rebalance_condition,
    RebalanceSignal.avg_a, RebalanceSignal.avg_b.
  rewrite Hw, Hc.
  replace (RebalanceSignal.window_size <=? Z.of_nat (List.length (older ++ recent)))
    with true.
  2:{ symmetry. apply Z.leb_le. rewrite length_app, Hlen.
      unfold RebalanceSignal.window_size. lia. }
  replace (RebalanceSignal.window_size <=? Z.of_nat (List.length recent)) with true.
  2:{ symmetry. apply Z.leb_le. rewrite Hlen. unfold RebalanceSignal.window_size. lia. }
  reflexivity.
Qed.

Lemma signal_reads_last_ten_witness :
  RebalanceSignal.evaluate ([(0, 900%float, 900%float)] ++ flat_entries)
  = RebalanceSignal.evaluate flat_entries.
Proof.
  apply (signal_reads_last_ten [(0, 900%float, 900%float)] flat_entries).
  reflexivity.
Defined.

(** ** The price handlers *)

(** X11. [GET /get-dai-price] reads the same feed as [GET /get-pol-price]
    (the same ABI path and the same [price_feed_address]): in every
    environment the two handlers make the same outside calls and give
    the same answer, the price of one token under the name of the
    other. They differ in the line logged on failure only. *)
Theorem dai_price_is_pol_price
        (extern : list call -> call -> outcome value) (config : value) (w : world) :
  fst (get_dai_price extern config w) = fst (get_pol_price extern config w)
  /\ trace (snd (get_dai_price extern config w)) = trace (snd (get_pol_price extern config w)).
Proof.
  unfold get_dai_price, get_pol_price, try_except.
  destruct (bind (read_price_feed extern config) _ w) as [[a | e] w1]; split; reflexivity.
Qed.

(** ** The outside calls a handler makes *)

Lemma trace_grows_ret {A : Type} (a : A) : trace_grows (ret a).
Proof. intros w r w' H. inversion H. exists []. rewrite app_nil_r. reflexivity. Qed.

Lemma trace_grows_lift {A : Type} (r : outcome A) : trace_grows (lift r).
Proof. intros w r' w' H. inversion H. exists []. rewrite app_nil_r. reflexivity. Qed.

Lemma trace_grows_append (s : string) : trace_grows (append_log s).
Proof. intros w r w' H. inversion H. exists []. simpl. rewrite app_nil_r. reflexivity. Qed.

Lemma trace_grows_logger_info (s : string) : trace_grows (logger_info s).
Proof. apply trace_grows_append. Qed.

Lemma trace_grows_logger_error (s : string) : trace_grows (logger_error s).
Proof. apply trace_grows_append. Qed.

Lemma trace_grows_ext (extern : list call -> call -> outcome value)
      (name : string) (args : list value) :
  trace_grows (ext extern name args).
Proof. intros w r w' H. unfold ext in H. inversion H. eexists. reflexivity. Qed.

Lemma trace_grows_time (clock : list call -> float) : trace_grows (time_time clock).
Proof. intros w r w' H. unfold time_time in H. inversion H. eexists. reflexivity. Qed.

Lemma trace_grows_bind {A B : Type} (m : M A) (k : A -> M B) :
  trace_grows m -> (forall a, trace_grows (k a)) -> trace_grows (bind m k).
Proof.
  intros Hm Hk w r w' H. unfold bind in H.
  destruct (m w) as [[a | e] w1] eqn:E.
  - destruct (Hm _ _ _ E) as [cs1 H1]. destruct (Hk a _ _ _ H) as [cs2 H2].
    exists (cs1 ++ cs2)%list. rewrite H2, H1, app_assoc. reflexivity.
  - inversion H; subst. apply (Hm _ _ _ E).
Qed.

Lemma trace_grows_try {A : Type} (body : M A) (h : exn -> M A) :
  trace_grows body -> (forall e, trace_grows (h e)) -> trace_grows (try_except body h).
Proof.
  intros Hb Hh w r w' H. unfold try_except in H.
  destruct (body w) as [[a | e] w1] eqn:E.
  - inversion H; subst. apply (Hb _ _ _ E).
  - destruct (Hb _ _ _ E) as [cs1 H1]. destruct (Hh e _ _ _ H) as [cs2 H2].
    exists (cs1 ++ cs2)%list. rewrite H2, H1, app_assoc. reflexivity.
Qed.

#[local] Hint Resolve trace_grows_ret trace_grows_lift trace_grows_append
  trace_grows_logger_info trace_grows_logger_error trace_grows_ext trace_grows_time : calls.

Lemma trace_grows_on_error (what : string) (e : exn) : trace_grows (on_error what e).
Proof. unfold on_error. grow_with @trace_grows_bind. Qed.

Lemma trace_grows_config_get (config : value) (section key : string) :
  trace_grows (config_get config section key).
Proof. unfold config_get. grow_with @trace_grows_bind. Qed.

Lemma trace_grows_deadline (clock : list call -> float) (seconds : Z) :
  trace_grows (deadline clock seconds).
Proof. unfold deadline. grow_with @trace_grows_bind. Qed.

Lemma trace_grows_scaled_amount (amount balance : value) :
  trace_grows (scaled_amount amount balance).
Proof. unfold scaled_amount. grow_with @trace_grows_bind. Qed.

#[local] Hint Resolve trace_grows_on_error trace_grows_config_get trace_grows_deadline
  trace_grows_scaled_amount : calls.

(** A [try] whose body starts with an outside call makes that call
    first, whatever follows. *)
Lemma first_call (extern : list call -> call -> outcome value)
      (name : string) (args : list value) (k : value -> M value) (h : exn -> M value)
      (w : world) :
  (forall x, trace_grows (k x)) -> (forall e, trace_grows (h e)) ->
  exists r w' rest,
    try_except (bind (ext extern name args) k) h w = (r, w')
    /\ trace w' = (trace w ++ Call name args :: rest)%list.
Proof.
  intros Hk Hh. unfold try_except, bind, ext.
  destruct (extern (trace w) (Call name args)) as [x | e].
  - destruct (k x _) as [[a | e] w2] eqn:E.
    + destruct (Hk x _ _ _ E) as [cs H]. simpl in H.
      exists (Ok a), w2, cs. split; [reflexivity|]. rewrite H, <- app_assoc. reflexivity.
    + destruct (Hk x _ _ _ E) as [cs H]. simpl in H.
      destruct (h e w2) as [r w3] eqn:E3. destruct (Hh e _ _ _ E3) as [cs' H'].
      exists r, w3, (cs ++ cs')%list. split; [reflexivity|].
      rewrite H', H, <- !app_assoc. reflexivity.
  - destruct (h e _) as [r w3] eqn:E3. destruct (Hh e _ _ _ E3) as [cs' H']. simpl in H'.
    exists r, w3, cs'. split; [reflexivity|]. rewrite H', <- app_assoc. reflexivity.
Qed.

Section Presence.
Variable extern : list call -> call -> outcome value.
Variable clock : list call -> float.
Variable config wallet_address private_key pol_address : value.

(** X7. [POST /send] tests its two fields against [None] only (line 90),
    where [POST /rebalance] tests truth: a recipient [''] or an amount
    [0] passes, and the handler goes on to its first outside call,
    [to_wei(str(amount), 'ether')]. *)
Theorem send_checks_presence_only (data recipient amount : value) (w : world) :
  get data "recipient_address" = Ok recipient ->
  get data "amount_in_pol" = Ok amount ->
  recipient <> VNone -> amount <> VNone ->
  exists r w' rest,
    send_transaction extern clock data w = (r, w')
    /\ trace w'
       = (trace w ++ Call "w3.utils.to_wei" [VStr (str amount); VStr "ether"] :: rest)%list.
Proof.
  intros Hr Ha Hnr Hna. unfold send_transaction. run_get Hr. run_get Ha.
  replace (is_none recipient || is_none amount) with false.
  2:{ destruct recipient; try contradiction; destruct amount; try contradiction; reflexivity. }
  apply first_call.
  - intros x. grow_with @trace_grows_bind.
  - intros e. apply trace_grows_on_error.
Qed.

End Presence.

Lemma send_checks_presence_only_witness :
  exists r w' rest,
    send_transaction sample_chain sample_clock falsy_send_payload empty_world = (r, w')
    /\ trace w'
       = (trace empty_world
            ++ Call "w3.utils.to_wei" [VStr (str (VInt 0)); VStr "ether"] :: rest)%list.
Proof.
  apply (send_checks_presence_only sample_chain sample_clock falsy_send_payload
           (VStr EmptyString) (VInt 0) empty_world).
  - reflexivity.
  - reflexivity.
  - discriminate.
  - discriminate.
Defined.

Lemma scaled_amount_world (a b : value) (w : world) : snd (scaled_amount a b w) = w.
Proof.
  unfold scaled_amount, bind, lift.
  destruct (mul a b) as [p | e]; [|reflexivity].
  destruct (truediv p (VInt (10 ^ 18))) as [q | e]; [|reflexivity].
  destruct (int q); reflexivity.
Qed.

Lemma truediv_sequence (p : value) (d : Z) :
  is_number p = false -> exists e, truediv p (VInt d) = Raise e.
Proof. destruct p; try discriminate; intros _; eexists; reflexivity. Qed.

Lemma mul_non_number (a b p : value) :
  is_number a = false -> mul a b = Ok p -> is_number p = false.
Proof.
  destruct a; try discriminate; intros _; destruct b; simpl; intros H;
    inversion H; reflexivity.
Qed.

Lemma scaled_amount_non_number (a b : value) (w : world) :
  is_number a = false -> exists e, scaled_amount a b w = (Raise e, w).
Proof.
  intros Ha. unfold scaled_amount, bind, lift.
  destruct (mul a b) as [p | e] eqn:Em; [|eexists; reflexivity].
  destruct (truediv_sequence p (10 ^ 18) (mul_non_number a b p Ha Em)) as [e He].
  rewrite He. eexists; reflexivity.
Qed.

Lemma bind_run_ok {A B : Type} (m : M A) (k : A -> M B) (w w' : world) (a : A) :
  m w = (Ok a, w') -> bind m k w = k a w'.
Proof. intros H. unfold bind. rewrite H. reflexivity. Qed.

Lemma bind_run_raise {A B : Type} (m : M A) (k : A -> M B) (w w' : world) (e : exn) :
  m w = (Raise e, w') -> bind m k w = (Raise e, w').
Proof. intros H. unfold bind. rewrite H. reflexivity. Qed.

Section Numbers.
Variable extern : list call -> call -> outcome value.
Variable clock : list call -> float.
Variable config wallet_address private_key pol_address : value.

(** X8. [POST /rebalance] with an amount that is no number (a string, a
    list, an object) and all four fields true submits nothing: it reads
    at most the two balances, fails in
    [int(amount * balance / 10**18)], and answers 500. *)
Theorem rebalance_needs_numbers
        (data token_a token_b amount_a amount_b : value) (w : world) :
  get data "token_a" = Ok token_a ->
  get data "token_b" = Ok token_b ->
  get data "amount_a" = Ok amount_a ->
  get data "amount_b" = Ok amount_b ->
  all [token_a; token_b; amount_a; amount_b] = true ->
  is_number amount_a = false \/ is_number amount_b = false ->
  exists msg w',
    rebalance extern clock config wallet_address data w
    = (Ok (VTuple [jsonify [("error", VStr msg)]; VInt 500]), w')
    /\ (trace w' = (trace w ++ [Call "w3.eth.get_balance" [token_a]])%list
        \/ trace w' = (trace w ++ [Call "w3.eth.get_balance" [token_a];
                                   Call "w3.eth.get_balance" [token_b]])%list).
Proof.
  intros Ha Hb Hc Hd Hall Hnum. unfold rebalance.
  run_get Ha. run_get Hb. run_get Hc. run_get Hd. rewrite Hall. cbn [negb].
  unfold try_except.
  unfold bind at 1. unfold ext at 1.
  destruct (extern (trace w) (Call "w3.eth.get_balance" [token_a])) as [ba | e].
  2:{ cbv beta iota. rewrite on_error_answers. eexists. eexists.
      split; [reflexivity|]. left. reflexivity. }
  cbv beta iota.
  unfold bind at 1. unfold ext at 1. cbn [trace log_file].
  destruct (extern _ (Call "w3.eth.get_balance" [token_b])) as [bb | e].
  2:{ cbv beta iota. rewrite on_error_answers. eexists. eexists.
      split; [reflexivity|]. right. cbn [trace]. rewrite <- app_assoc. reflexivity. }
  cbv beta iota.
  match goal with
  | |- context [bind (scaled_amount amount_a ba) ?k ?w2] => set (K := k); set (W := w2)
  end.
  assert (Hraise : exists e, bind (scaled_amount amount_a ba) K W = (Raise e, W)).
  { pose proof (scaled_amount_world amount_a ba W) as Hw.
    destruct (scaled_amount amount_a ba W) as [[x | e] w3] eqn:E1;
      simpl in Hw; subst w3.
    - destruct Hnum as [Hn | Hn].
      + destruct (scaled_amount_non_number amount_a ba W Hn) as [e He].
        rewrite He in E1. discriminate.
      + destruct (scaled_amount_non_number amount_b bb W Hn) as [e He].
        exists e. rewrite (bind_run_ok _ _ _ _ _ E1). unfold K.
        apply bind_run_raise. exact He.
    - exists e. apply bind_run_raise. exact E1. }
  destruct Hraise as [e He]. rewrite He. rewrite on_error_answers.
  eexists. eexists. split; [reflexivity|]. right. unfold W. cbn [trace].
  rewrite <- app_assoc. reflexivity.
Qed.

End Numbers.

Lemma rebalance_needs_numbers_witness :
  exists msg w',
    rebalance sample_chain sample_clock sample_config sample_wallet text_amount_payload
      empty_world
    = (Ok (VTuple [jsonify [("error", VStr msg)]; VInt 500]), w')
    /\ (trace w' = (trace empty_world ++ [Call "w3.eth.get_balance" [VStr "0xA"]])%list
        \/ trace w' = (trace empty_world ++ [Call "w3.eth.get_balance" [VStr "0xA"];
                                             Call "w3.eth.get_balance" [VStr "0xB"]])%list).
Proof.
  apply (rebalance_needs_numbers sample_chain sample_clock sample_config sample_wallet
           text_amount_payload (VStr "0xA") (VStr "0xB") (VStr "2") (VInt 1) empty_world).
  - reflexivity.
  - reflexivity.
  - reflexivity.
  - reflexivity.
  - reflexivity.
  - left. reflexivity.
Defined.

(** ** The answers of the handlers that have a [try] *)

Lemma on_error_logged (what msg : string) (e : exn) (w w' : world) :
  on_error what e w = (Ok (VTuple [jsonify [("error", VStr msg)]; VInt 500]), w') ->
  log_file w' = (log_file w ++ what ++ msg ++ nl)%string.
Proof.
  rewrite on_error_answers. intros H. inversion H; subst. simpl.
  rewrite append_assoc. reflexivity.
Qed.

Lemma try_on_error_answer (body : M value) (what : string) (w : world) :
  (forall a w', body w = (Ok a, w') -> is_answer a) ->
  exists a w', try_except body (on_error what) w = (Ok a, w') /\ is_answer a.
Proof.
  intros Hbody. unfold try_except.
  destruct (body w) as [[a | e] w'] eqn:E.
  - exists a, w'. split; [reflexivity | apply (Hbody a w' eq_refl)].
  - rewrite on_error_answers. eexists. eexists. split; [reflexivity |].
    eexists. eexists. split; [reflexivity | right; right; reflexivity].
Qed.

Lemma missing_parameters_answer : is_answer missing_parameters.
Proof. eexists. eexists. split; [reflexivity | right; left; reflexivity]. Qed.

Section ErrorAnswers.
Variable extern : list call -> call -> outcome value.
Variable clock : list call -> float.
Variable config wallet_address private_key pol_address : value.

(** X9. Every 500 answer of [POST /send], [POST /buy-pol] and
    [POST /rebalance] is logged first: the file ends with the handler's
    prefix, the very message of the answer and a newline. *)
Theorem error_answer_is_logged (ep : endpoint) (data : value) (msg : string) (w w' : world) :
  ep <> AutoRebalance ->
  handle extern clock config wallet_address private_key pol_address ep data w
  = (Ok (VTuple [jsonify [("error", VStr msg)]; VInt 500]), w') ->
  exists before, log_file w' = (before ++ error_prefix ep ++ msg ++ nl)%string.
Proof.
  intros Hep H. destruct ep; simpl handle in H; simpl error_prefix; [| | |contradiction].
  - unfold send_transaction in H.
    do 2 (peel_with @bind_ok_inv append_log_inv @kept H).
    destruct (is_none _ || is_none _); [inversion H|].
    apply try_ok_inv in H. destruct H as [H | [e [wx [_ H]]]].
    + do 7 (peel_with @bind_ok_inv append_log_inv @kept H). inversion H.
    + exists (log_file wx). apply (on_error_logged _ _ _ _ _ H).
  - unfold buy_pol, buy_pol_with in H.
    peel_with @bind_ok_inv append_log_inv @kept H.
    destruct (is_none _); [inversion H|].
    apply try_ok_inv in H. destruct H as [H | [e [wx [_ H]]]].
    + exfalso. apply bind_ok_inv in H. destruct H as [p [wp [Hp H]]].
      apply bind_ok_inv in H. destruct H as [q [wq [Hq _]]].
      destruct (get_pol_price_pair extern config w0) as [p' [wp' [Hp' [body [status ->]]]]].
      rewrite Hp' in Hp. inversion Hp; subst.
      unfold lift in Hq. rewrite truediv_by_tuple in Hq. discriminate.
    + exists (log_file wx). apply (on_error_logged _ _ _ _ _ H).
  - unfold rebalance in H.
    do 4 (peel_with @bind_ok_inv append_log_inv @kept H).
    destruct (negb (all _)); [inversion H|].
    apply try_ok_inv in H. destruct H as [H | [e [wx [_ H]]]].
    + do 16 (peel_with @bind_ok_inv append_log_inv @kept H). inversion H.
    + exists (log_file wx). apply (on_error_logged _ _ _ _ _ H).
Qed.

(** X10. On a payload that is a JSON object, [POST /send],
    [POST /buy-pol] and [POST /rebalance] always answer, and so do
    [GET /get-pol-price], [GET /get-dai-price] and [GET /log] on every
    request: no exception leaves them, whatever the outside calls do,
    and the status is 200, 400 or 500. *)
Theorem handlers_with_try_answer (kvs : list (string * value)) (w : world) :
  (forall ep, ep <> AutoRebalance ->
     exists v w',
       handle extern clock config wallet_address private_key pol_address ep (VDict kvs) w
       = (Ok v, w') /\ is_answer v)
  /\ (exists v w', get_pol_price extern config w = (Ok v, w') /\ is_answer v)
  /\ (exists v w', get_dai_price extern config w = (Ok v, w') /\ is_answer v)
  /\ (exists v w', get_log w = (Ok v, w') /\ is_answer v).
Proof.
  split; [|split; [|split]].
  - intros ep Hep. destruct ep; simpl handle; [| | |contradiction].
    + destruct (get_dict_total kvs "recipient_address") as [r Hr].
      destruct (get_dict_total kvs "amount_in_pol") as [a Ha].
      unfold send_transaction. run_get Hr. run_get Ha.
      destruct (is_none r || is_none a).
      * eexists. eexists. split; [reflexivity | apply missing_parameters_answer].
      * apply try_on_error_answer. ok_answer_with @bind_ok_inv.
    + destruct (get_dict_total kvs "amount_in_usd") as [a Ha].
      unfold buy_pol, buy_pol_with. run_get Ha.
      destruct (is_none a).
      * eexists. eexists. split; [reflexivity | apply missing_parameters_answer].
      * apply try_on_error_answer. ok_answer_with @bind_ok_inv.
    + destruct (get_dict_total kvs "token_a") as [ta Ha].
      destruct (get_dict_total kvs "token_b") as [tb Hb].
      destruct (get_dict_total kvs "amount_a") as [aa Hc].
      destruct (get_dict_total kvs "amount_b") as [ab Hd].
      unfold rebalance. run_get Ha. run_get Hb. run_get Hc. run_get Hd.
      destruct (negb (all [ta; tb; aa; ab])).
      * eexists. eexists. split; [reflexivity | apply missing_parameters_answer].
      * apply try_on_error_answer. ok_answer_with @bind_ok_inv.
  - unfold get_pol_price. apply try_on_error_answer. ok_answer_with @bind_ok_inv.
  - unfold get_dai_price. apply try_on_error_answer. ok_answer_with @bind_ok_inv.
  - unfold get_log. apply try_on_error_answer. ok_answer_with @bind_ok_inv.
Qed.

End ErrorAnswers.

Lemma error_answer_is_logged_witness :
  exists before,
    log_file (snd (handle unreachable_chain sample_clock sample_config sample_wallet
                     sample_key sample_pol Send send_payload empty_world))
    = (before ++ error_prefix Send ++ "no route" ++ nl)%string.
Proof.
  apply (error_answer_is_logged unreachable_chain sample_clock sample_config sample_wallet
           sample_key sample_pol Send send_payload "no route" empty_world).
  - discriminate.
  - vm_compute. reflexivity.
Defined.

(** ** [GET /log] *)




(** ** Appending a line to a readable log *)

Lemma rstrip_space_end (x : list ascii) (c : ascii) :
  is_space c = true -> rstrip (x ++ [c]) = rstrip x.
Proof.
  intros H. unfold rstrip. rewrite rev_app_distr. simpl. rewrite H. reflexivity.
Qed.

Lemma lstrip_space_end (a : list ascii) (c : ascii) :
  is_space c = true ->
  lstrip (a ++ [c]) = lstrip a \/ lstrip (a ++ [c]) = (lstrip a ++ [c])%list.
Proof.
  intros H. induction a as [|x a IH]; simpl.
  - rewrite H. left. reflexivity.
  - destruct (is_space x); [exact IH | right; reflexivity].
Qed.

Lemma strip_space_end (a : list ascii) (c : ascii) :
  is_space c = true -> strip (a ++ [c]) = strip a.
Proof.
  intros H. unfold strip.
  destruct (lstrip_space_end a c H) as [E | E]; rewrite E; [reflexivity|].
  apply rstrip_space_end. exact H.
Qed.

Lemma parse_line_lf (line : list ascii) :
  parse_line (line ++ ["010"%char]) = parse_line line.
Proof. unfold parse_line. rewrite strip_space_end; reflexivity. Qed.

Lemma parse_lines_snoc (lines : list (list ascii)) (line : list ascii)
      (data : list entry) (e : entry) :
  parse_lines lines = Ok data -> parse_line line = Ok e ->
  parse_lines (lines ++ [line]) = Ok (data ++ [e])%list.
Proof.
  revert data. induction lines as [|x lines IH]; intros data H He; simpl in *.
  - inversion H; subst. rewrite He. reflexivity.
  - destruct (parse_line x) as [y | ex]; [|discriminate].
    destruct (parse_lines lines) as [ys | ex]; [|discriminate].
    inversion H; subst. rewrite (IH ys eq_refl He). reflexivity.
Qed.

Lemma within_line_no_cr (line : list ascii) :
  forallb within_line line = true -> forall c, In c line -> Ascii.eqb c "013" = false.
Proof.
  intros H c Hc. rewrite forallb_forall in H. specialize (H c Hc).
  unfold within_line in H. apply andb_true_iff in H. destruct H as [_ H].
  apply negb_true_iff in H. exact H.
Qed.

Lemma within_line_no_lf (line : list ascii) :
  forallb within_line line = true -> forall c, In c line -> Ascii.eqb c "010" = false.
Proof.
  intros H c Hc. rewrite forallb_forall in H. specialize (H c Hc).
  unfold within_line in H. apply andb_true_iff in H. destruct H as [H _].
  apply negb_true_iff in H. exact H.
Qed.

Lemma one_line (line : list ascii) :
  forallb within_line line = true ->
  lines_from [] (universal_newlines (line ++ ["010"%char])) = [(line ++ ["010"%char])%list].
Proof.
  intros H. rewrite (un_app_plain line ["010"%char] (within_line_no_cr line H)).
  change (universal_newlines ["010"%char]) with ["010"%char].
  rewrite (lines_from_plain line ["010"%char] [] (within_line_no_lf line H)).
  simpl. rewrite app_nil_r, rev_involutive. reflexivity.
Qed.

Lemma file_lines_snoc (log : string) (line : list ascii) :
  complete_log log -> forallb within_line line = true ->
  file_lines (log ++ text line ++ nl)
  = (file_lines log ++ [(line ++ ["010"%char])%list])%list.
Proof.
  intros [-> | [b ->]] Hl; unfold file_lines.
  - simpl append. rewrite chars_app, chars_text. apply (one_line line Hl).
  - rewrite !chars_app, chars_text. change (chars nl) with ["010"%char].
    rewrite <- app_assoc. simpl app.
    destruct (un_app_lf (List.length (chars b)) (chars b) (line ++ ["010"%char])%list (le_n _))
      as [q [Hq1 Hq2]].
    rewrite Hq2, Hq1. rewrite lines_from_app_lf. rewrite (one_line line Hl). reflexivity.
Qed.

(** X2. The reader composes: when the log is empty or ends with a
    newline and [readAll()] reads it, appending one line with no line
    break in it that parses to [e], and a newline, makes [readAll()]
    return the earlier entries followed by [e]. *)
Theorem wellformed_line_reads_back
        (log : string) (line : list ascii) (data : list entry) (e : entry)
        (calls : list call) :
  complete_log log ->
  forallb within_line line = true ->
  readAll (World log calls) = (Ok data, World log calls) ->
  parse_line line = Ok e ->
  readAll (World (log ++ text line ++ nl) calls)
  = (Ok (data ++ [e])%list, World (log ++ text line ++ nl) calls).
Proof.
  intros Hc Hl Hd He. unfold readAll in *. cbn [log_file] in *.
  rewrite (file_lines_snoc log line Hc Hl).
  inversion Hd as [Hp].
  rewrite (parse_lines_snoc _ (line ++ ["010"%char])%list data e Hp).
  - reflexivity.
  - rewrite parse_line_lf. exact He.
Qed.

Lemma wellformed_line_reads_back_witness :
  readAll (World ("1,100,100" ++ nl ++ text (chars "2,200.5,1e1") ++ nl) [])
  = (Ok ([(1, 100%float, 100%float)] ++ [(2, 200.5%float, 10%float)])%list,
     World ("1,100,100" ++ nl ++ text (chars "2,200.5,1e1") ++ nl) []).
Proof.
  apply (wellformed_line_reads_back ("1,100,100" ++ nl) (chars "2,200.5,1e1")
           [(1, 100%float, 100%float)] (2, 200.5%float, 10%float) []).
  - right. exists "1,100,100". reflexivity.
  - reflexivity.
  - vm_compute. reflexivity.
  - vm_compute. reflexivity.
Defined.
